(** * TaskFlowAI: the dual-mode data service and the task derivations

    A shallow embedding of [src/types.ts], of the derivation functions of
    [src/App.tsx] ([groupTasks], [getTodayProgress]) and of the analytics
    view ([getWeeklyHeatmap]), and of the unified data service of
    [src/services/databaseService.ts], with the browser's answer to the
    unguarded writes of the current profile as a parameter, followed by
    the properties that the specification states about them; and of the
    handlers of the App component ([src/App.tsx]), of the task card
    ([src/components/TaskItem.tsx]) and of the figures of the analytics
    view ([src/components/LoginPage.tsx]), with further properties that
    the code has.

    Layout: the JavaScript runtime ([JS]), the data model, the derivations,
    the data service, the vocabulary of the properties, the App component,
    the task card and the analytics view, a reference runtime for closed
    examples, and then the facts: the sort, the grouping, the derived
    figures, the local store, modes and failures, what is stored where,
    the App component, the search filter, the analytics view and the task
    card, closed examples. *)

From Stdlib Require Import ZArith List String Ascii Bool Lia.
From Stdlib Require Import Permutation Sorted.
From Stdlib Require Import QArith Qminmax.
From Stdlib Require Import PrimFloat FloatOps SpecFloat Uint63.
From Stdlib Require Import DecimalString.
Import ListNotations.

Local Open Scope string_scope.
Local Open Scope Z_scope.

(* ===================================================================== *)
(** ** The JavaScript runtime the sources rely on *)
(* ===================================================================== *)

Module JS.

(** *** Strings.  Text is modelled as ASCII, one character per byte. *)

Definition lowerChar (c : ascii) : ascii :=
  let n := nat_of_ascii c in
  if (Nat.leb 65 n && Nat.leb n 90)%bool then ascii_of_nat (n + 32) else c.

(** [s.toLowerCase()] *)
Fixpoint toLowerCase (s : string) : string :=
  match s with
  | EmptyString => EmptyString
  | String c s' => String (lowerChar c) (toLowerCase s')
  end.

(** [s.includes(q)]: [q] occurs in [s] as a contiguous substring. *)
Fixpoint includes (s q : string) : bool :=
  (String.prefix q s
   || match s with
      | EmptyString => false
      | String _ s' => includes s' q
      end)%bool.

(** [s.split(sep)[0]] for a one-character separator. *)
Fixpoint beforeFirst (sep : ascii) (s : string) : string :=
  match s with
  | EmptyString => EmptyString
  | String c s' => if Ascii.eqb c sep then EmptyString else String c (beforeFirst sep s')
  end.

(** [s.charAt(0).toUpperCase() + s.slice(1)] *)
Definition upperChar (c : ascii) : ascii :=
  let n := nat_of_ascii c in
  if (Nat.leb 97 n && Nat.leb n 122)%bool then ascii_of_nat (n - 32) else c.

Definition capitalize (s : string) : string :=
  match s with
  | EmptyString => EmptyString
  | String c s' => String (upperChar c) s'
  end.

(** Template-literal rendering of an integral number, as in
    [`user_${Date.now()}`]. *)
Definition numberToString (z : Z) : string := NilZero.string_of_int (Z.to_int z).

(** *** Dates.  A [Date] object holds a time value in milliseconds since
    the epoch, or NaN when it was built from a string that does not parse
    ("Invalid Date"). *)

Definition Date := option Z.

(** [d.getTime()]: a number, [None] standing for NaN. *)
Definition getTime (d : Date) : option Z := d.

(** [d1 < d2] on [Date] objects: both are converted to numbers, and every
    comparison with NaN is false. *)
Definition Date_lt (d1 d2 : Date) : bool :=
  match d1, d2 with
  | Some a, Some b => a <? b
  | _, _ => false
  end.

(** The text [d.toDateString()] returns: the local calendar day of a valid
    date ("Mon Nov 02 2026"), identified here with the number of that day
    counted from 1970-01-01, or the fixed text "Invalid Date". *)
Inductive DateString : Type :=
| CalendarDay (day : Z)
| InvalidDate.

(** [s1 === s2] on such texts. *)
Definition DateString_eqb (s1 s2 : DateString) : bool :=
  match s1, s2 with
  | CalendarDay a, CalendarDay b => a =? b
  | InvalidDate, InvalidDate => true
  | _, _ => false
  end.

(** [days[d.getDay()]] with [days = ['Sun', ..., 'Sat']], for the calendar
    day [day]; 1970-01-01 was a Thursday. *)
Definition dayLabel (day : Z) : string :=
  nth (Z.to_nat ((day + 4) mod 7))
      ["Sun"; "Mon"; "Tue"; "Wed"; "Thu"; "Fri"; "Sat"] "".

(** *** Numbers.  The result of a comparator is a number; [None] is NaN. *)

(** [a - b] on two [getTime()] results: NaN as soon as one side is NaN.
    Time values are integers below 2^53 in size, so the sign of the
    double-precision difference is the sign of the exact one. *)
Definition minus (a b : option Z) : option Z :=
  match a, b with
  | Some x, Some y => Some (x - y)
  | _, _ => None
  end.

(** ECMAScript's SortCompare: the comparator's result, NaN read as +0. *)
Definition SortCompare {A : Type} (comparefn : A -> A -> option Z) (x y : A) : Z :=
  match comparefn x y with
  | Some v => v
  | None => 0
  end.

(** [arr.sort(comparefn)].  ECMAScript requires the sort to be stable; for
    a consistent comparator every stable sort returns the same array, so
    the algorithm does not matter there, and insertion sort stands for it.
    For an inconsistent comparator (one that returns NaN for some pairs
    only) ECMAScript leaves the order to the implementation, and engines
    differ; insertion from the right is one such order.  The orders
    proved of the sorted buckets are stated where the comparator is
    consistent. *)
Fixpoint insert {A : Type} (comparefn : A -> A -> option Z) (x : A) (l : list A) : list A :=
  match l with
  | [] => [x]
  | y :: l' =>
      if SortCompare comparefn x y <=? 0
      then x :: y :: l'
      else y :: insert comparefn x l'
  end.

Fixpoint sort {A : Type} (comparefn : A -> A -> option Z) (l : list A) : list A :=
  match l with
  | [] => []
  | x :: l' => insert comparefn x (sort comparefn l')
  end.

(** A non-negative integer (an array length) as a double. *)
Definition toNumber (z : Z) : float := PrimFloat.of_uint63 (Uint63.of_Z z).

(** [Math.round(x)]: the integer closest to [x], ties going towards
    +Infinity; [None] when [x] is NaN or infinite.  The value of a finite
    double is [m * 2^e], so the rounding is computed exactly. *)
Definition Math_round (x : float) : option Z :=
  match Prim2SF x with
  | S754_zero _ => Some 0
  | S754_infinity _ | S754_nan => None
  | S754_finite s m e =>
      let n := if s then - Z.pos m else Z.pos m in
      match e with
      | Z.neg p => Some ((2 * n + 2 ^ Z.pos p) / 2 ^ (Z.pos p + 1))
      | _ => Some (n * 2 ^ e)
      end
  end.

End JS.

(* ===================================================================== *)
(** ** The data model ([src/types.ts]) *)
(* ===================================================================== *)

Inductive Priority : Type := LOW | MEDIUM | HIGH | URGENT.

Inductive TaskStatus : Type := TODO | IN_PROGRESS | COMPLETED.

Definition TaskStatus_eqb (a b : TaskStatus) : bool :=
  match a, b with
  | TODO, TODO | IN_PROGRESS, IN_PROGRESS | COMPLETED, COMPLETED => true
  | _, _ => false
  end.

Record UserProfile : Type := mkUserProfile {
  user_id : string;
  user_name : string;
  user_email : string;
  user_password : option string;
  user_joinedAt : string
}.

Record Subtask : Type := mkSubtask {
  subtask_id : string;
  subtask_title : string;
  subtask_isCompleted : bool
}.

Record Task : Type := mkTask {
  task_id : string;
  task_userId : string;
  task_title : string;
  task_description : string;
  task_dueDate : string;
  task_priority : Priority;
  task_status : TaskStatus;
  task_createdAt : string;
  task_calendarEventUrl : option string;
  task_subtasks : option (list Subtask)
}.

Record EmailContact : Type := mkEmailContact {
  contact_id : string;
  contact_userId : string;
  contact_address : string;
  contact_isActive : bool
}.

Inductive ScheduleItemType : Type := type_task | type_break | type_focus.

Record ScheduleItem : Type := mkScheduleItem {
  item_time : string;
  item_activity : string;
  item_type : ScheduleItemType;
  item_notes : option string
}.

Inductive IconKey : Type := brain | clock | briefcase | sun | coffee | zap | list_icon.

Record PlanTemplate : Type := mkPlanTemplate {
  template_id : string;
  template_userId : option string;
  template_label : string;
  template_iconKey : IconKey;
  template_prompt : string;
  template_isCustom : option bool
}.

Record DailyPlan : Type := mkDailyPlan {
  plan_date : string;
  plan_userId : string;
  plan_schedule : list ScheduleItem;
  plan_notes : string
}.

(* ===================================================================== *)
(** ** Task grouping and the derived figures
       ([src/App.tsx], [src/components/LoginPage.tsx]) *)
(* ===================================================================== *)

Record TaskGroups : Type := mkTaskGroups {
  overdue : list Task;
  today : list Task;
  upcoming : list Task;
  completed : list Task
}.

Record HeatmapEntry : Type := mkHeatmapEntry {
  entry_day : string;
  entry_value : Q;
  entry_count : nat
}.

Section Derivation.

(** The runtime's date parser: the time value of [new Date(s)], [None]
    when [s] does not parse. *)
Variable parseDate : string -> JS.Date.

(** The runtime's time zone: the local calendar day, counted from
    1970-01-01, that holds the instant [t]. *)
Variable localDay : Z -> Z.

(** [new Date(s)] *)
Definition newDate (s : string) : JS.Date := parseDate s.

(** [d.toDateString()] *)
Definition toDateString (d : JS.Date) : JS.DateString :=
  match d with
  | Some t => JS.CalendarDay (localDay t)
  | None => JS.InvalidDate
  end.

(** The search filter of [groupTasks]:
    [t.title.toLowerCase().includes(q) || t.description?.toLowerCase().includes(q)]
    with [q = searchQuery.toLowerCase()]. *)
Definition matchesSearch (searchQuery : string) (t : Task) : bool :=
  (JS.includes (JS.toLowerCase (task_title t)) (JS.toLowerCase searchQuery)
   || JS.includes (JS.toLowerCase (task_description t)) (JS.toLowerCase searchQuery))%bool.

(** [sorter]: [new Date(a.dueDate).getTime() - new Date(b.dueDate).getTime()] *)
Definition sorter (a b : Task) : option Z :=
  JS.minus (JS.getTime (newDate (task_dueDate a))) (JS.getTime (newDate (task_dueDate b))).

(** The comparator of the completed group:
    [new Date(b.createdAt).getTime() - new Date(a.createdAt).getTime()] *)
Definition mostRecentFirst (a b : Task) : option Z :=
  JS.minus (JS.getTime (newDate (task_createdAt b))) (JS.getTime (newDate (task_createdAt a))).

Definition noGroups : TaskGroups := mkTaskGroups [] [] [] [].

(** The body of [filteredTasks.forEach]: [push] appends to one group. *)
Definition placeTask (now : Z) (g : TaskGroups) (task : Task) : TaskGroups :=
  let todayStr := toDateString (Some now) in
  if TaskStatus_eqb (task_status task) COMPLETED then
    mkTaskGroups (overdue g) (today g) (upcoming g) (completed g ++ [task])
  else
    let dueDate := newDate (task_dueDate task) in
    if (JS.Date_lt dueDate (Some now)
        && negb (JS.DateString_eqb (toDateString dueDate) todayStr))%bool then
      mkTaskGroups (overdue g ++ [task]) (today g) (upcoming g) (completed g)
    else if JS.DateString_eqb (toDateString dueDate) todayStr then
      mkTaskGroups (overdue g) (today g ++ [task]) (upcoming g) (completed g)
    else
      mkTaskGroups (overdue g) (today g) (upcoming g ++ [task]) (completed g).

(** [groupTasks], with the clock reading [now] and the component state
    ([tasks], [searchQuery]) as arguments. *)
Definition groupTasks (now : Z) (searchQuery : string) (tasks : list Task) : TaskGroups :=
  let filteredTasks := filter (matchesSearch searchQuery) tasks in
  let g := fold_left (placeTask now) filteredTasks noGroups in
  mkTaskGroups (JS.sort sorter (overdue g))
               (JS.sort sorter (today g))
               (JS.sort sorter (upcoming g))
               (JS.sort mostRecentFirst (completed g)).

(** [getTodayProgress]; the result is a number, [None] standing for NaN. *)
Definition getTodayProgress (now : Z) (tasks : list Task) : option Z :=
  let todayStr := toDateString (Some now) in
  let todayTasks :=
    filter (fun t => JS.DateString_eqb (toDateString (newDate (task_dueDate t))) todayStr)
           tasks in
  if (List.length todayTasks =? 0)%nat then Some 0
  else
    let completedToday :=
      List.length (filter (fun t => TaskStatus_eqb (task_status t) COMPLETED) todayTasks) in
    JS.Math_round
      (PrimFloat.mul
         (PrimFloat.div (JS.toNumber (Z.of_nat completedToday))
                        (JS.toNumber (Z.of_nat (List.length todayTasks))))
         (JS.toNumber 100)).

(** One turn of the loop of [getWeeklyHeatmap].  [d.setDate(d.getDate() - i)]
    moves [d] to the calendar day [i] days before today's.  The count is
    below 2^32, so [(activityCount / 8) * 100] is exact in double
    precision and rational arithmetic gives the same number. *)
Definition heatmapEntry (now : Z) (tasks : list Task) (i : Z) : HeatmapEntry :=
  let d := localDay now - i in
  let dayStr := JS.CalendarDay d in
  let dayLabel := JS.dayLabel d in
  let activityCount :=
    List.length (filter (fun t =>
              let created :=
                JS.DateString_eqb (toDateString (newDate (task_createdAt t))) dayStr in
              let due :=
                JS.DateString_eqb (toDateString (newDate (task_dueDate t))) dayStr in
              (created || due)%bool) tasks) in
  let percentage :=
    Qmin ((inject_Z (Z.of_nat activityCount) / 8) * 100) 100 in
  mkHeatmapEntry dayLabel percentage activityCount.

(** [getWeeklyHeatmap]: [for (let i = 6; i >= 0; i--)] pushing one entry
    per turn. *)
Definition getWeeklyHeatmap (now : Z) (tasks : list Task) : list HeatmapEntry :=
  map (heatmapEntry now tasks) [6; 5; 4; 3; 2; 1; 0].

End Derivation.

(* ===================================================================== *)
(** ** The unified data service ([src/services/databaseService.ts]) *)
(* ===================================================================== *)

(** *** Exceptions and the service monad *)

Inductive exn : Type :=
| Error (message : string)           (* [throw new Error(message)] *)
| FirebaseError (code : string)      (* a rejection of the Firebase SDK *)
| DOMException (name : string).      (* an exception of the browser, by its name *)

Inductive outcome (A : Type) : Type :=
| Returned (a : A)
| Thrown (e : exn).

Arguments Returned {A} a.
Arguments Thrown {A} e.

(** A computation over a world [W]: it returns or throws, and in both cases
    leaves a world behind (what was written before a throw stays written). *)
Definition M (W A : Type) : Type := W -> outcome A * W.

Definition ret {W A : Type} (a : A) : M W A := fun w => (Returned a, w).

Definition throw {W A : Type} (e : exn) : M W A := fun w => (Thrown e, w).

Definition bind {W A B : Type} (m : M W A) (k : A -> M W B) : M W B :=
  fun w =>
    match m w with
    | (Returned a, w') => k a w'
    | (Thrown e, w') => (Thrown e, w')
    end.

(** [try { m } catch (e) { h e }] *)
Definition try_catch {W A : Type} (m : M W A) (h : exn -> M W A) : M W A :=
  fun w =>
    match m w with
    | (Returned a, w') => (Returned a, w')
    | (Thrown e, w') => h e w'
    end.

Declare Scope service_scope.
Delimit Scope service_scope with service.
Notation "x <- m ;; k" := (bind m (fun x => k))
  (at level 61, m at next level, right associativity) : service_scope.
Notation "m ;; k" := (bind m (fun _ => k))
  (at level 61, right associativity) : service_scope.

(** [Promise.all(ms)] over promises that were all started: every one runs,
    and the first rejection, if any, is the result. *)
Fixpoint promiseAll {W A : Type} (ms : list (M W A)) : M W (list A) :=
  match ms with
  | [] => ret []
  | m :: ms' =>
      fun w =>
        match m w with
        | (Returned a, w1) =>
            match promiseAll ms' w1 with
            | (Returned l, w2) => (Returned (a :: l), w2)
            | (Thrown e, w2) => (Thrown e, w2)
            end
        | (Thrown e, w1) =>
            match promiseAll ms' w1 with
            | (_, w2) => (Thrown e, w2)
            end
        end
  end.

(** *** Arrays *)

(** [arr.findIndex(p)], [None] standing for -1. *)
Fixpoint findIndex {A : Type} (p : A -> bool) (l : list A) : option nat :=
  match l with
  | [] => None
  | x :: l' => if p x then Some O else option_map S (findIndex p l')
  end.

(** [arr[index] = x] for an index inside the array. *)
Fixpoint setAt {A : Type} (l : list A) (index : nat) (x : A) : list A :=
  match l, index with
  | [], _ => []
  | _ :: l', O => x :: l'
  | y :: l', S i => y :: setAt l' i x
  end.

(** *** Local storage.  Every key of [KEYS] holds the JSON text of an array
    of one entity type, except [CURRENT_USER], which holds one profile.  The
    store is modelled as reliable: [setItem] succeeds and what was stored
    parses back to the value that was written. *)

Record LocalStorage : Type := mkLocalStorage {
  tf_tasks : option (list Task);
  tf_contacts : option (list EmailContact);
  tf_templates : option (list PlanTemplate);
  tf_daily_plans : option (list DailyPlan);
  tf_users : option (list UserProfile);
  tf_current_user_profile : option UserProfile
}.

Inductive Key : Type -> Type :=
| TASKS : Key Task
| CONTACTS : Key EmailContact
| TEMPLATES : Key PlanTemplate
| PLANS : Key DailyPlan
| USERS : Key UserProfile.

Definition getItem {T : Type} (key : Key T) (ls : LocalStorage) : option (list T) :=
  match key in Key T return option (list T) with
  | TASKS => tf_tasks ls
  | CONTACTS => tf_contacts ls
  | TEMPLATES => tf_templates ls
  | PLANS => tf_daily_plans ls
  | USERS => tf_users ls
  end.

Definition setItem {T : Type} (key : Key T) (data : list T) (ls : LocalStorage) : LocalStorage :=
  match key in Key T return list T -> LocalStorage with
  | TASKS => fun d =>
      mkLocalStorage (Some d) (tf_contacts ls) (tf_templates ls) (tf_daily_plans ls)
                     (tf_users ls) (tf_current_user_profile ls)
  | CONTACTS => fun d =>
      mkLocalStorage (tf_tasks ls) (Some d) (tf_templates ls) (tf_daily_plans ls)
                     (tf_users ls) (tf_current_user_profile ls)
  | TEMPLATES => fun d =>
      mkLocalStorage (tf_tasks ls) (tf_contacts ls) (Some d) (tf_daily_plans ls)
                     (tf_users ls) (tf_current_user_profile ls)
  | PLANS => fun d =>
      mkLocalStorage (tf_tasks ls) (tf_contacts ls) (tf_templates ls) (Some d)
                     (tf_users ls) (tf_current_user_profile ls)
  | USERS => fun d =>
      mkLocalStorage (tf_tasks ls) (tf_contacts ls) (tf_templates ls) (tf_daily_plans ls)
                     (Some d) (tf_current_user_profile ls)
  end data.

Definition setCurrentUserItem (u : option UserProfile) (ls : LocalStorage) : LocalStorage :=
  mkLocalStorage (tf_tasks ls) (tf_contacts ls) (tf_templates ls) (tf_daily_plans ls)
                 (tf_users ls) u.

Definition emptyStorage : LocalStorage := mkLocalStorage None None None None None None.

(** *** The Firebase SDK, as the calls the service makes to it *)

Inductive Collection : Type -> Type :=
| coll_tasks : Collection Task
| coll_contacts : Collection EmailContact
| coll_templates : Collection PlanTemplate
| coll_daily_plans : Collection DailyPlan
| coll_users : Collection UserProfile.

Definition collectionName {T : Type} (c : Collection T) : string :=
  match c with
  | coll_tasks => "tasks"
  | coll_contacts => "contacts"
  | coll_templates => "templates"
  | coll_daily_plans => "daily_plans"
  | coll_users => "users"
  end.

(** [userCredential.user] *)
Record AuthUser : Type := mkAuthUser {
  auth_uid : string;
  auth_displayName : option string;
  auth_email : option string
}.

Inductive ProviderName : Type := google | apple | github.

Definition providerText (p : ProviderName) : string :=
  match p with
  | google => "google"
  | apple => "apple"
  | github => "github"
  end.

(** One constructor per SDK function awaited by the service, indexed by the
    type of what the promise resolves to.  A document snapshot is the pair
    of [doc.id] and [doc.data()]; [wheres] are the equality filters of a
    query.  [updateDoc] receives the entity and sends its fields other than
    [id]. *)
Inductive Firebase : Type -> Type :=
| setDoc {T : Type} (c : Collection T) (docId : string) (data : T) (merge : bool) : Firebase unit
| updateDoc {T : Type} (c : Collection T) (docId : string) (data : T) : Firebase unit
| deleteDoc {T : Type} (c : Collection T) (docId : string) : Firebase unit
| getDocs {T : Type} (c : Collection T) (wheres : list (string * string))
    : Firebase (list (string * T))
| createUserWithEmailAndPassword (email password : string) : Firebase AuthUser
| signInWithEmailAndPassword (email password : string) : Firebase AuthUser
| sendPasswordResetEmail (email : string) : Firebase unit
| signInWithPopup (provider : ProviderName) : Firebase AuthUser
| signOut : Firebase unit.

(** A record of one SDK call, for the log of remote calls. *)
Inductive RemoteCall : Type :=
| Called {T : Type} (c : Firebase T).

(** *** Module state: [isReal], [firestore], [auth] *)

Record Env : Type := mkEnv {
  isReal : bool;        (* [isFirebaseConfigured()] *)
  firestore : bool;     (* the handle was assigned *)
  auth : bool           (* the handle was assigned *)
}.

(** How the initialisation block at module load can end. *)
Inductive InitResult : Type :=
| InitializeAppThrows
| GetFirestoreThrows
| GetAuthThrows
| Initialized.

(** [const isReal = isFirebaseConfigured(); if (isReal) { try { ... } catch { } }] *)
Definition initialize (isFirebaseConfigured : bool) (r : InitResult) : Env :=
  if isFirebaseConfigured then
    match r with
    | InitializeAppThrows | GetFirestoreThrows => mkEnv true false false
    | GetAuthThrows => mkEnv true true false
    | Initialized => mkEnv true true true
    end
  else mkEnv false false false.

(** *** The world a service call runs in *)

Record World (R : Type) : Type := mkWorld {
  localStorage : LocalStorage;
  remote : R;                        (* the state of the Firebase backend *)
  remoteCalls : list RemoteCall;     (* log of the SDK calls made so far *)
  dateNow : Z                        (* [Date.now()] *)
}.

Arguments mkWorld {R} _ _ _ _.
Arguments localStorage {R} _.
Arguments remote {R} _.
Arguments remoteCalls {R} _.
Arguments dateNow {R} _.

(** *** The requests a caller can make, one per method of [db] *)

Inductive Request : Type :=
| GetCurrentUser
| UpdateUserProfile (user : UserProfile)
| RegisterUser (user : UserProfile)
| LoginUser (email pass : string)
| ResetPassword (email : string)
| SocialLogin (providerName : ProviderName)
| Logout
| GetTasks (userId : string)
| AddTask (task : Task)
| UpdateTask (updatedTask : Task)
| DeleteTask (taskId : string)
| ClearCompletedTasks (userId : string)
| GetContacts (userId : string)
| AddContact (contact : EmailContact)
| UpdateContact (contact : EmailContact)
| DeleteContact (contactId : string)
| GetCustomTemplates (userId : string)
| AddTemplate (template : PlanTemplate)
| DeleteTemplate (templateId : string)
| GetDailyPlan (userId date : string)
| SaveDailyPlan (plan : DailyPlan).

Inductive Response : Type :=
| Void
| Profile (u : UserProfile)
| Tasks (l : list Task)
| Contacts (l : list EmailContact)
| Templates (l : list PlanTemplate)
| Plan (p : option DailyPlan).

(** *** The browser's answer to a write of the current profile *)

(** [localStorage.setItem] throws when the browser refuses the write: the
    quota is used up, or storage is switched off.  [setLocal] catches
    that, and its writes are taken to go through.  The writes of the
    current profile, [localStorage.setItem(KEYS.CURRENT_USER, ...)], are
    outside every [try]: for them the browser's answer is a parameter of
    the operations that make them, the exception it throws for a value and
    a state of the storage, [None] when it stores the value. *)
Definition Browser : Type := UserProfile -> LocalStorage -> option exn.

(** A browser with room for every profile. *)
Definition unlimited : Browser := fun _ _ => None.

Section DataService.

(** The Firebase backend: its state, and what each SDK call resolves to
    or rejects with in a given state. *)
Variable R : Type.
Variable backend : forall T : Type, Firebase T -> R -> outcome T * R.

(** [new Date(ms).toISOString()] *)
Variable toISOString : Z -> string.

(** The module state after load. *)
Variable env : Env.

Local Open Scope service_scope.

(** [await c] for an SDK call [c]: the call is logged and the backend
    answers. *)
Definition await {T : Type} (c : Firebase T) : M (World R) T :=
  fun w =>
    let (r, remote') := backend T c (remote w) in
    (r, mkWorld (localStorage w) remote' (remoteCalls w ++ [Called c]) (dateNow w)).

(** [getLocal<T>(key)]: [data ? JSON.parse(data) : []] *)
Definition getLocal {T : Type} (key : Key T) : M (World R) (list T) :=
  fun w =>
    (Returned match getItem key (localStorage w) with
              | Some data => data
              | None => []
              end, w).

(** [setLocal(key, data)] *)
Definition setLocal {T : Type} (key : Key T) (data : list T) : M (World R) unit :=
  fun w =>
    (Returned tt,
     mkWorld (setItem key data (localStorage w)) (remote w) (remoteCalls w) (dateNow w)).

(** [localStorage.getItem(KEYS.CURRENT_USER)], parsed *)
Definition getStoredUser : M (World R) (option UserProfile) :=
  fun w => (Returned (tf_current_user_profile (localStorage w)), w).

(** [localStorage.setItem(KEYS.CURRENT_USER, JSON.stringify(u))], not
    guarded: what the browser throws goes on to the caller, and nothing is
    written then. *)
Definition storeUser_in (browser : Browser) (u : UserProfile) : M (World R) unit :=
  fun w =>
    match browser u (localStorage w) with
    | Some e => (Thrown e, w)
    | None =>
        (Returned tt,
         mkWorld (setCurrentUserItem (Some u) (localStorage w))
                 (remote w) (remoteCalls w) (dateNow w))
    end.

(** The same write in a browser with room for it. *)
Definition storeUser (u : UserProfile) : M (World R) unit := storeUser_in unlimited u.

(** [localStorage.removeItem(KEYS.CURRENT_USER)] *)
Definition removeUser : M (World R) unit :=
  fun w =>
    (Returned tt,
     mkWorld (setCurrentUserItem None (localStorage w))
             (remote w) (remoteCalls w) (dateNow w)).

(** [Date.now()] and [new Date().toISOString()] *)
Definition Date_now : M (World R) Z := fun w => (Returned (dateNow w), w).

Definition nowISOString : M (World R) string := fun w => (Returned (toISOString (dateNow w)), w).

(** [try { m; return; } catch (e) {}]: [true] when the function returned
    from inside the [try], [false] when control goes on after it. *)
Definition returnsFromTry (m : M (World R) unit) : M (World R) bool :=
  try_catch (m ;; ret true) (fun _ => ret false).

(** [useFirestore(userId?)]:
    [isReal && firestore && userId && userId !== 'guest-user'], as a
    condition.  [None] is an absent [userId]; the empty string is falsy
    as well. *)
Definition useFirestore (userId : option string) : bool :=
  (isReal env && firestore env
   && match userId with
      | Some u => negb (String.eqb u "") && negb (String.eqb u "guest-user")
      | None => false
      end)%bool.

(** **** Auth / user *)

(** The operations that write the current profile take the browser as a
    parameter ([getCurrentUser_in browser], ...).  The name of the source
    function alone stands for the operation in a browser with room for
    every profile, where the write goes through: that is the setting of
    the properties that follow a profile over several calls. *)

Definition getCurrentUser_in (browser : Browser) : M (World R) UserProfile :=
  stored <- getStoredUser ;;
  match stored with
  | Some u => ret u
  | None =>
      joinedAt <- nowISOString ;;
      let guest := mkUserProfile "guest-user" "Guest User" "guest@taskflow.ai" None joinedAt in
      storeUser_in browser guest ;;
      ret guest
  end.

Definition getCurrentUser : M (World R) UserProfile :=
  getCurrentUser_in unlimited.

Definition updateUserProfile_in (browser : Browser) (user : UserProfile)
  : M (World R) UserProfile :=
  storeUser_in browser user ;;
  (if useFirestore (Some (user_id user)) then
     try_catch
       (if firestore env then await (setDoc coll_users (user_id user) user true) else ret tt)
       (fun _ => ret tt)
   else ret tt) ;;
  ret user.

Definition updateUserProfile (user : UserProfile) : M (World R) UserProfile :=
  updateUserProfile_in unlimited user.

(** [user.password || 'password'] *)
Definition passwordOrDefault (p : option string) : string :=
  match p with
  | Some s => if String.eqb s "" then "password" else s
  | None => "password"
  end.

Definition registerUser_in (browser : Browser) (user : UserProfile)
  : M (World R) UserProfile :=
  if (isReal env && auth env)%bool then
    userCredential <- await (createUserWithEmailAndPassword
                               (user_email user) (passwordOrDefault (user_password user))) ;;
    let newUserProfile :=
      mkUserProfile (auth_uid userCredential) (user_name user) (user_email user)
                    (Some "") (user_joinedAt user) in
    try_catch
      (if firestore env
       then await (setDoc coll_users (user_id newUserProfile) newUserProfile false)
       else ret tt)
      (fun _ => ret tt) ;;
    ret newUserProfile
  else
    users <- getLocal USERS ;;
    match find (fun u => String.eqb (user_email u) (user_email user)) users with
    | Some _ => throw (Error "User already exists")
    | None =>
        now <- Date_now ;;
        let newUser :=
          mkUserProfile ("user_" ++ JS.numberToString now) (user_name user)
                        (user_email user) (user_password user) (user_joinedAt user) in
        setLocal USERS (users ++ [newUser]) ;;
        storeUser_in browser newUser ;;
        ret newUser
    end.

Definition registerUser (user : UserProfile) : M (World R) UserProfile :=
  registerUser_in unlimited user.

(** [a || b] on an optional string: [b] when [a] is absent or empty. *)
Definition orElse (a : option string) (b : string) : string :=
  match a with
  | Some s => if String.eqb s "" then b else s
  | None => b
  end.

Definition loginUser_in (browser : Browser) (email pass : string)
  : M (World R) UserProfile :=
  if (isReal env && auth env)%bool then
    userCredential <- await (signInWithEmailAndPassword email pass) ;;
    joinedAt <- nowISOString ;;
    ret (mkUserProfile (auth_uid userCredential)
                       (orElse (auth_displayName userCredential) (JS.beforeFirst "@" email))
                       (orElse (auth_email userCredential) email)
                       None joinedAt)
  else
    users <- getLocal USERS ;;
    if (String.eqb email "demo@example.com" && String.eqb pass "password")%bool then
      joinedAt <- nowISOString ;;
      let demoUser := mkUserProfile "guest-user" "Guest User" "demo@example.com" None joinedAt in
      storeUser_in browser demoUser ;;
      ret demoUser
    else
      match find (fun u => (String.eqb (user_email u) email
                            && match user_password u with
                               | Some p => String.eqb p pass
                               | None => false
                               end)%bool) users with
      | None => throw (Error "Invalid credentials")
      | Some user =>
          storeUser_in browser user ;;
          ret user
      end.

Definition loginUser (email pass : string) : M (World R) UserProfile :=
  loginUser_in unlimited email pass.

Definition resetPassword (email : string) : M (World R) unit :=
  if (isReal env && auth env)%bool then
    await (sendPasswordResetEmail email) ;;
    ret tt
  else ret tt.

(** Every one of the three provider names selects a provider object, so
    [if (provider)] holds whenever the remote branch is entered. *)
Definition socialLogin_in (browser : Browser) (providerName : ProviderName)
  : M (World R) UserProfile :=
  if (isReal env && auth env)%bool then
    result <- await (signInWithPopup providerName) ;;
    joinedAt <- nowISOString ;;
    let profile :=
      mkUserProfile (auth_uid result) (orElse (auth_displayName result) "User")
                    (orElse (auth_email result) "") None joinedAt in
    try_catch
      (if firestore env
       then await (setDoc coll_users (user_id profile) profile true)
       else ret tt)
      (fun _ => ret tt) ;;
    ret profile
  else
    now <- Date_now ;;
    joinedAt <- nowISOString ;;
    let profile :=
      mkUserProfile ("social_" ++ providerText providerName ++ "_" ++ JS.numberToString now)
                    (JS.capitalize (providerText providerName) ++ " User")
                    ("user@" ++ providerText providerName ++ ".com")
                    None joinedAt in
    storeUser_in browser profile ;;
    ret profile.

Definition socialLogin (providerName : ProviderName) : M (World R) UserProfile :=
  socialLogin_in unlimited providerName.

Definition logout : M (World R) unit :=
  (if (isReal env && auth env)%bool then await signOut else ret tt) ;;
  removeUser.

(** **** Tasks *)

(** [docs.map(doc => ({ id: doc.id, ...doc.data() }))]: the documents are
    written whole by [setDoc], so [data()] has its own [id] field, and the
    spread lets it win over [doc.id]. *)
Definition docsData {T : Type} (docs : list (string * T)) : list T := map snd docs.

Definition getTasks (userId : string) : M (World R) (list Task) :=
  if useFirestore (Some userId) then
    try_catch
      (querySnapshot <- await (getDocs coll_tasks [("userId", userId)]) ;;
       ret (docsData querySnapshot))
      (fun _ =>
         stored <- getLocal TASKS ;;
         ret (filter (fun t => String.eqb (task_userId t) userId) stored))
  else
    stored <- getLocal TASKS ;;
    ret (filter (fun t => String.eqb (task_userId t) userId) stored).

Definition addTask (task : Task) : M (World R) unit :=
  returned <- (if useFirestore (Some (task_userId task))
               then returnsFromTry (await (setDoc coll_tasks (task_id task) task false))
               else ret false) ;;
  if returned : bool then ret tt
  else
    stored <- getLocal TASKS ;;
    setLocal TASKS (task :: stored).          (* [unshift] *)

Definition updateTask (updatedTask : Task) : M (World R) unit :=
  returned <- (if useFirestore (Some (task_userId updatedTask))
               then returnsFromTry
                      (await (updateDoc coll_tasks (task_id updatedTask) updatedTask))
               else ret false) ;;
  if returned : bool then ret tt
  else
    stored <- getLocal TASKS ;;
    match findIndex (fun t => String.eqb (task_id t) (task_id updatedTask)) stored with
    | Some index => setLocal TASKS (setAt stored index updatedTask)
    | None => ret tt
    end.

Definition deleteTask (taskId : string) : M (World R) unit :=
  returned <- (if (isReal env && firestore env)%bool
               then returnsFromTry (await (deleteDoc coll_tasks taskId))
               else ret false) ;;
  if returned : bool then ret tt
  else
    stored <- getLocal TASKS ;;
    let filtered := filter (fun t => negb (String.eqb (task_id t) taskId)) stored in
    setLocal TASKS filtered.

Definition clearCompletedTasks (userId : string) : M (World R) unit :=
  returned <- (if useFirestore (Some userId)
               then returnsFromTry
                      (querySnapshot <- await (getDocs coll_tasks
                                                 [("userId", userId); ("status", "COMPLETED")]) ;;
                       promiseAll (map (fun d => await (deleteDoc coll_tasks (fst d)))
                                       querySnapshot) ;;
                       ret tt)
               else ret false) ;;
  if returned : bool then ret tt
  else
    stored <- getLocal TASKS ;;
    let filtered :=
      filter (fun t => negb (String.eqb (task_userId t) userId
                             && TaskStatus_eqb (task_status t) COMPLETED)) stored in
    setLocal TASKS filtered.

(** **** Contacts *)

Definition getContacts (userId : string) : M (World R) (list EmailContact) :=
  if useFirestore (Some userId) then
    try_catch
      (s <- await (getDocs coll_contacts [("userId", userId)]) ;;
       ret (docsData s))
      (fun _ =>
         stored <- getLocal CONTACTS ;;
         ret (filter (fun c => String.eqb (contact_userId c) userId) stored))
  else
    stored <- getLocal CONTACTS ;;
    ret (filter (fun c => String.eqb (contact_userId c) userId) stored).

Definition addContact (contact : EmailContact) : M (World R) unit :=
  returned <- (if useFirestore (Some (contact_userId contact))
               then returnsFromTry
                      (await (setDoc coll_contacts (contact_id contact) contact false))
               else ret false) ;;
  if returned : bool then ret tt
  else
    stored <- getLocal CONTACTS ;;
    setLocal CONTACTS (stored ++ [contact]).  (* [push] *)

Definition updateContact (contact : EmailContact) : M (World R) unit :=
  returned <- (if useFirestore (Some (contact_userId contact))
               then returnsFromTry
                      (await (updateDoc coll_contacts (contact_id contact) contact))
               else ret false) ;;
  if returned : bool then ret tt
  else
    stored <- getLocal CONTACTS ;;
    match findIndex (fun c => String.eqb (contact_id c) (contact_id contact)) stored with
    | Some index => setLocal CONTACTS (setAt stored index contact)
    | None => ret tt
    end.

Definition deleteContact (contactId : string) : M (World R) unit :=
  returned <- (if (isReal env && firestore env)%bool
               then returnsFromTry (await (deleteDoc coll_contacts contactId))
               else ret false) ;;
  if returned : bool then ret tt
  else
    stored <- getLocal CONTACTS ;;
    let filtered := filter (fun c => negb (String.eqb (contact_id c) contactId)) stored in
    setLocal CONTACTS filtered.

(** **** Templates *)

(** [t.userId === userId] on an optional field *)
Definition ownedBy (owner : option string) (userId : string) : bool :=
  match owner with
  | Some u => String.eqb u userId
  | None => false
  end.

Definition getCustomTemplates (userId : string) : M (World R) (list PlanTemplate) :=
  if useFirestore (Some userId) then
    try_catch
      (s <- await (getDocs coll_templates [("userId", userId)]) ;;
       ret (docsData s))
      (fun _ =>
         stored <- getLocal TEMPLATES ;;
         ret (filter (fun t => ownedBy (template_userId t) userId) stored))
  else
    stored <- getLocal TEMPLATES ;;
    ret (filter (fun t => ownedBy (template_userId t) userId) stored).

(** [template.userId && useFirestore(template.userId)] *)
Definition addTemplate (template : PlanTemplate) : M (World R) unit :=
  returned <- (if (match template_userId template with
                   | Some u => negb (String.eqb u "")
                   | None => false
                   end && useFirestore (template_userId template))%bool
               then returnsFromTry
                      (await (setDoc coll_templates (template_id template) template false))
               else ret false) ;;
  if returned : bool then ret tt
  else
    stored <- getLocal TEMPLATES ;;
    setLocal TEMPLATES (stored ++ [template]).

Definition deleteTemplate (templateId : string) : M (World R) unit :=
  returned <- (if (isReal env && firestore env)%bool
               then returnsFromTry (await (deleteDoc coll_templates templateId))
               else ret false) ;;
  if returned : bool then ret tt
  else
    stored <- getLocal TEMPLATES ;;
    let filtered := filter (fun t => negb (String.eqb (template_id t) templateId)) stored in
    setLocal TEMPLATES filtered.

(** **** Daily plans *)

(** [p.userId === userId && p.date === date] *)
Definition samePlanKey (userId date : string) (p : DailyPlan) : bool :=
  (String.eqb (plan_userId p) userId && String.eqb (plan_date p) date)%bool.

Definition getDailyPlan (userId date : string) : M (World R) (option DailyPlan) :=
  if useFirestore (Some userId) then
    try_catch
      (s <- await (getDocs coll_daily_plans [("userId", userId); ("date", date)]) ;;
       match s with
       | [] => ret None                       (* [s.empty] *)
       | d :: _ => ret (Some (snd d))
       end)
      (fun _ =>
         plans <- getLocal PLANS ;;
         ret (find (samePlanKey userId date) plans))
  else
    plans <- getLocal PLANS ;;
    ret (find (samePlanKey userId date) plans).

Definition saveDailyPlan (plan : DailyPlan) : M (World R) unit :=
  returned <- (if useFirestore (Some (plan_userId plan))
               then returnsFromTry
                      (let docId := plan_userId plan ++ "_" ++ plan_date plan in
                       await (setDoc coll_daily_plans docId plan false))
               else ret false) ;;
  if returned : bool then ret tt
  else
    plans <- getLocal PLANS ;;
    match findIndex (samePlanKey (plan_userId plan) (plan_date plan)) plans with
    | Some index => setLocal PLANS (setAt plans index plan)
    | None => setLocal PLANS (plans ++ [plan])
    end.

(** **** The service as a whole, in a given browser *)

Definition perform_in (browser : Browser) (req : Request) : M (World R) Response :=
  match req with
  | GetCurrentUser => u <- getCurrentUser_in browser ;; ret (Profile u)
  | UpdateUserProfile user => u <- updateUserProfile_in browser user ;; ret (Profile u)
  | RegisterUser user => u <- registerUser_in browser user ;; ret (Profile u)
  | LoginUser email pass => u <- loginUser_in browser email pass ;; ret (Profile u)
  | ResetPassword email => resetPassword email ;; ret Void
  | SocialLogin providerName => u <- socialLogin_in browser providerName ;; ret (Profile u)
  | Logout => logout ;; ret Void
  | GetTasks userId => l <- getTasks userId ;; ret (Tasks l)
  | AddTask task => addTask task ;; ret Void
  | UpdateTask updatedTask => updateTask updatedTask ;; ret Void
  | DeleteTask taskId => deleteTask taskId ;; ret Void
  | ClearCompletedTasks userId => clearCompletedTasks userId ;; ret Void
  | GetContacts userId => l <- getContacts userId ;; ret (Contacts l)
  | AddContact contact => addContact contact ;; ret Void
  | UpdateContact contact => updateContact contact ;; ret Void
  | DeleteContact contactId => deleteContact contactId ;; ret Void
  | GetCustomTemplates userId => l <- getCustomTemplates userId ;; ret (Templates l)
  | AddTemplate template => addTemplate template ;; ret Void
  | DeleteTemplate templateId => deleteTemplate templateId ;; ret Void
  | GetDailyPlan userId date => p <- getDailyPlan userId date ;; ret (Plan p)
  | SaveDailyPlan plan => saveDailyPlan plan ;; ret Void
  end.

(** The service in a browser with room for every profile. *)
Definition perform (req : Request) : M (World R) Response := perform_in unlimited req.

End DataService.

Arguments await {R} backend {T} c _.
Arguments perform_in {R} backend toISOString env browser req _.
Arguments perform {R} backend toISOString env req _.

(** The data operations can go remote exactly when the configuration is
    present and the initialisation got as far as the Firestore handle. *)
Definition firestoreReached (r : InitResult) : bool :=
  match r with
  | GetAuthThrows | Initialized => true
  | InitializeAppThrows | GetFirestoreThrows => false
  end.

(** *** Vocabulary of the mode-selection rule *)

(** The guest sentinel. *)
Definition GUEST_ID : string := "guest-user".

(** "The remote backend was successfully initialized at process start". *)
Definition remoteInitialized (env : Env) : bool := (isReal env && firestore env)%bool.


(** The three deletions, which receive an id and nothing else. *)
Definition isDeletion (req : Request) : bool :=
  match req with
  | DeleteTask _ | DeleteContact _ | DeleteTemplate _ => true
  | _ => false
  end.







(** A call used the remote backend when it made at least one SDK call. *)
Definition usedRemote {R : Type} (before after : World R) : Prop :=
  (List.length (remoteCalls before) < List.length (remoteCalls after))%nat.

(** A call ran against local storage only: no SDK call, backend untouched. *)
Definition ranLocally {R : Type} (before after : World R) : Prop :=
  remoteCalls after = remoteCalls before /\ remote after = remote before.

(** *** Vocabulary of the daily-plan store *)



(** The array stored under a key, absent read as empty. *)
Definition stored {T : Type} (key : Key T) (ls : LocalStorage) : list T :=
  match getItem key ls with
  | Some data => data
  | None => []
  end.

(** *** Vocabulary of sorting *)

(** The comparator is consistent on [l]: it is the difference of a key. *)
Definition keyed {A : Type} (comparefn : A -> A -> option Z) (key : A -> Z) (l : list A) : Prop :=
  forall a b, In a l -> In b l -> JS.SortCompare comparefn a b = key a - key b.

Definition keyLe {A : Type} (key : A -> Z) (a b : A) : Prop := key a <= key b.

(** *** Vocabulary of the grouping *)

Inductive Bucket : Type := Overdue | Today | Upcoming | Completed.

Definition bucket (g : TaskGroups) (b : Bucket) : list Task :=
  match b with
  | Overdue => overdue g
  | Today => today g
  | Upcoming => upcoming g
  | Completed => completed g
  end.

Definition Bucket_eqb (a b : Bucket) : bool :=
  match a, b with
  | Overdue, Overdue | Today, Today | Upcoming, Upcoming | Completed, Completed => true
  | _, _ => false
  end.

Definition isCompleted (t : Task) : bool := TaskStatus_eqb (task_status t) COMPLETED.

Section GroupingVocabulary.

Variable parseDate : string -> JS.Date.
Variable localDay : Z -> Z.

(** The bucket the specification assigns to a task: completed tasks go
    to [Completed] whatever their due date; of the others, one due on
    today's calendar date goes to [Today], one due before [now] on
    another date goes to [Overdue], and every other one goes to
    [Upcoming]. *)
Definition bucketBySpec (now : Z) (t : Task) : Bucket :=
  match task_status t with
  | COMPLETED => Completed
  | _ =>
      match parseDate (task_dueDate t) with
      | Some due =>
          if localDay due =? localDay now then Today
          else if due <? now then Overdue
          else Upcoming
      | None => Upcoming
      end
  end.

(** The comparator that sorts each bucket. *)
Definition comparatorOf (b : Bucket) : Task -> Task -> option Z :=
  match b with
  | Completed => mostRecentFirst parseDate
  | _ => sorter parseDate
  end.

(** The tasks of the list that pass the search filter and belong to
    bucket [b], in the order of the list. *)
Definition bucketMembers (now : Z) (searchQuery : string) (tasks : list Task) (b : Bucket)
  : list Task :=
  filter (fun t => Bucket_eqb (bucketBySpec now t) b)
         (filter (matchesSearch searchQuery) tasks).

(** The tasks whose due calendar date is today's, whatever their status. *)
Definition dueToday (now : Z) (t : Task) : bool :=
  match parseDate (task_dueDate t) with
  | Some due => localDay due =? localDay now
  | None => false
  end.

(** The tasks with something on calendar day [d]: created or due then. *)
Definition activeOn (d : Z) (t : Task) : bool :=
  (match parseDate (task_createdAt t) with
   | Some c => localDay c =? d
   | None => false
   end
   || match parseDate (task_dueDate t) with
      | Some due => localDay due =? d
      | None => false
      end)%bool.

(** Two tasks are in due order when the first is not due after the
    second; a task without a due timestamp constrains nothing. *)
Definition inDueOrder (a b : Task) : Prop :=
  match parseDate (task_dueDate a), parseDate (task_dueDate b) with
  | Some x, Some y => x <= y
  | _, _ => True
  end.

(** Most recently created first, likewise. *)
Definition inRecencyOrder (a b : Task) : Prop :=
  match parseDate (task_createdAt a), parseDate (task_createdAt b) with
  | Some x, Some y => y <= x
  | _, _ => True
  end.

(** The due timestamp as a sort key, and the creation timestamp negated
    (latest first); 0 stands in where the text does not parse. *)
Definition dueKey (t : Task) : Z :=
  match parseDate (task_dueDate t) with
  | Some x => x
  | None => 0
  end.

Definition recencyKey (t : Task) : Z :=
  match parseDate (task_createdAt t) with
  | Some x => - x
  | None => 0
  end.

Definition hasDue (k : Z) (t : Task) : bool :=
  match parseDate (task_dueDate t) with
  | Some x => x =? k
  | None => false
  end.

Definition hasCreation (k : Z) (t : Task) : bool :=
  match parseDate (task_createdAt t) with
  | Some x => x =? k
  | None => false
  end.

Definition dueParses (t : Task) : Prop := parseDate (task_dueDate t) <> None.

Definition creationParses (t : Task) : Prop := parseDate (task_createdAt t) <> None.

End GroupingVocabulary.

(** *** Vocabulary of the derived figures *)

(** [Math.round((c / n) * 100)] in double precision. *)
Definition percentage (c n : Z) : option Z :=
  JS.Math_round
    (PrimFloat.mul (PrimFloat.div (JS.toNumber c) (JS.toNumber n)) (JS.toNumber 100)).

(** round(100 * c / n) as arithmetic has it, an exact half going up (the
    rule of [Math.round]). *)
Definition roundedShare (c n : Z) : Z := (200 * c + n) / (2 * n).

(** [p] is an integer nearest to 100 * c / n. *)
Definition nearestPercent (c n p : Z) : Prop := Z.abs (2 * (n * p - 100 * c)) <= n.

(** A decision procedure for "[percentage c n] is an integer nearest to
    100 * c / n and lies between 0 and 100", run over every count
    [0 <= c <= n] and every positive [n] up to a bound. *)
Definition percentageIsNearest (c n : Z) : bool :=
  match percentage c n with
  | Some p => (Z.abs (2 * (n * p - 100 * c)) <=? n) && (0 <=? p) && (p <=? 100)
  | None => false
  end.

Fixpoint nearestForCounts (n c : Z) (steps : nat) : bool :=
  (percentageIsNearest c n
   && match steps with
      | O => true
      | S steps' => nearestForCounts n (c - 1) steps'
      end)%bool.

Fixpoint nearestUpTo (bound : nat) : bool :=
  match bound with
  | O => true
  | S bound' =>
      (nearestForCounts (Z.of_nat bound) (Z.of_nat bound) bound && nearestUpTo bound')%bool
  end.

Section ProgressVocabulary.

Variable parseDate : string -> JS.Date.
Variable localDay : Z -> Z.

(** The progress figure read off the today bucket of [groupTasks]: the
    share of its tasks that have status COMPLETED. *)
Definition progressOverTodayBucket (now : Z) (tasks : list Task) : option Z :=
  let todayBucket := today (groupTasks parseDate localDay now "" tasks) in
  if (List.length todayBucket =? 0)%nat then Some 0
  else percentage (Z.of_nat (List.length (filter isCompleted todayBucket)))
                  (Z.of_nat (List.length todayBucket)).

End ProgressVocabulary.

(** *** Vocabulary of histories and failures *)



(** The auth provider was initialised at load. *)
Definition authInitialized (env : Env) : bool := (isReal env && auth env)%bool.





(* ===================================================================== *)
(** ** Vocabulary of the local store and of the backend's answers *)
(* ===================================================================== *)

(** The tasks and contacts a user owns in local storage, in stored order. *)
Definition localTasks (owner : string) (ls : LocalStorage) : list Task :=
  filter (fun t => String.eqb (task_userId t) owner) (stored TASKS ls).

Definition localContacts (owner : string) (ls : LocalStorage) : list EmailContact :=
  filter (fun c => String.eqb (contact_userId c) owner) (stored CONTACTS ls).

(** The backend resolves the call [c] in state [r]. *)
Definition resolves {R T : Type} (backend : forall T : Type, Firebase T -> R -> outcome T * R)
  (c : Firebase T) (r : R) : Prop :=
  exists a, fst (backend T c r) = Returned a.

(** The backend rejects the call [c] in state [r]. *)
Definition rejects {R T : Type} (backend : forall T : Type, Firebase T -> R -> outcome T * R)
  (c : Firebase T) (r : R) : Prop :=
  exists e, fst (backend T c r) = Thrown e.

(** [arr.map(x => x.id === u.id ? u : x)] *)
Definition replaceById {A : Type} (key : A -> string) (u : A) (l : list A) : list A :=
  map (fun x => if String.eqb (key x) (key u) then u else x) l.

(** The collections of local storage a request may write. *)
Definition mayWriteTasks (req : Request) : bool :=
  match req with
  | AddTask _ | UpdateTask _ | DeleteTask _ | ClearCompletedTasks _ => true
  | _ => false
  end.

Definition mayWriteContacts (req : Request) : bool :=
  match req with
  | AddContact _ | UpdateContact _ | DeleteContact _ => true
  | _ => false
  end.

Definition mayWriteTemplates (req : Request) : bool :=
  match req with
  | AddTemplate _ | DeleteTemplate _ => true
  | _ => false
  end.

Definition mayWriteUsers (req : Request) : bool :=
  match req with
  | RegisterUser _ => true
  | _ => false
  end.

Definition mayWriteSession (req : Request) : bool :=
  match req with
  | GetCurrentUser | UpdateUserProfile _ | RegisterUser _ | LoginUser _ _
  | SocialLogin _ | Logout => true
  | _ => false
  end.

(* ===================================================================== *)
(** ** The task list component ([src/App.tsx]): state and handlers *)
(* ===================================================================== *)

(** [s.trim()], on ASCII white space. *)
Definition isWhiteSpace (c : ascii) : bool :=
  let n := nat_of_ascii c in
  ((Nat.leb 9 n && Nat.leb n 13) || Nat.eqb n 32)%bool.

Fixpoint trimStart (s : string) : string :=
  match s with
  | EmptyString => EmptyString
  | String c s' => if isWhiteSpace c then trimStart s' else s
  end.

Fixpoint trimEnd (s : string) : string :=
  match s with
  | EmptyString => EmptyString
  | String c s' =>
      match trimEnd s' with
      | EmptyString => if isWhiteSpace c then EmptyString else String c EmptyString
      | rest => String c rest
      end
  end.

Definition trim (s : string) : string := trimEnd (trimStart s).

Inductive ToastType : Type := toast_success | toast_error | toast_info.

(** The state of the component, and the toasts it has raised so far (the
    toast provider is outside the component; [addToast] is modelled as a
    log of its calls). *)
Record AppState : Type := mkAppState {
  app_tasks : list Task;
  app_emailContacts : list EmailContact;
  app_newEmailAddress : string;
  app_searchQuery : string;
  app_showConfetti : bool;
  app_isDataLoading : bool;
  app_toasts : list (string * ToastType)
}.

(** The component together with the data service it talks to. *)
Record AppWorld (R : Type) : Type := mkAppWorld {
  ui : AppState;
  db : World R
}.

Arguments mkAppWorld {R} _ _.
Arguments ui {R} _.
Arguments db {R} _.

(** What a handler is called with.  [uuid] is the value [uuidv4()] returns
    and [confirmed] the answer to [window.confirm].  A handler runs to its
    end before the next event is handled; the [loadUserData()] that a
    [catch] clause starts is run there. *)
Inductive Action : Type :=
| LoadUserData
| AddTaskAction (taskData : Task)
| DeleteTaskAction (taskId : string)
| ClearCompletedAction (confirmed : bool)
| UpdateTaskAction (updatedTask : Task)
| AddEmailAction (uuid : string)
| DeleteEmailAction (contactId : string)
| ToggleEmailActiveAction (contactId : string).

Section App.

Variable R : Type.
Variable backend : forall T : Type, Firebase T -> R -> outcome T * R.
Variable env : Env.

Local Open Scope service_scope.

(** An awaited call of the data service. *)
Definition callDb {A : Type} (m : M (World R) A) : M (AppWorld R) A :=
  fun aw =>
    let (o, w') := m (db aw) in
    (o, mkAppWorld (ui aw) w').

(** A state setter called with an updater function. *)
Definition setState (f : AppState -> AppState) : M (AppWorld R) unit :=
  fun aw => (Returned tt, mkAppWorld (f (ui aw)) (db aw)).

(** The state as the handler reads it. *)
Definition readState : M (AppWorld R) AppState := fun aw => (Returned (ui aw), aw).

Definition setTasks (f : list Task -> list Task) : M (AppWorld R) unit :=
  setState (fun s => mkAppState (f (app_tasks s)) (app_emailContacts s)
                                (app_newEmailAddress s) (app_searchQuery s)
                                (app_showConfetti s) (app_isDataLoading s) (app_toasts s)).

Definition setEmailContacts (l : list EmailContact) : M (AppWorld R) unit :=
  setState (fun s => mkAppState (app_tasks s) l
                                (app_newEmailAddress s) (app_searchQuery s)
                                (app_showConfetti s) (app_isDataLoading s) (app_toasts s)).

Definition setNewEmailAddress (a : string) : M (AppWorld R) unit :=
  setState (fun s => mkAppState (app_tasks s) (app_emailContacts s) a (app_searchQuery s)
                                (app_showConfetti s) (app_isDataLoading s) (app_toasts s)).

Definition setShowConfetti (b : bool) : M (AppWorld R) unit :=
  setState (fun s => mkAppState (app_tasks s) (app_emailContacts s)
                                (app_newEmailAddress s) (app_searchQuery s)
                                b (app_isDataLoading s) (app_toasts s)).

Definition setIsDataLoading (b : bool) : M (AppWorld R) unit :=
  setState (fun s => mkAppState (app_tasks s) (app_emailContacts s)
                                (app_newEmailAddress s) (app_searchQuery s)
                                (app_showConfetti s) b (app_toasts s)).

Definition addToast (message : string) (type : ToastType) : M (AppWorld R) unit :=
  setState (fun s => mkAppState (app_tasks s) (app_emailContacts s)
                                (app_newEmailAddress s) (app_searchQuery s)
                                (app_showConfetti s) (app_isDataLoading s)
                                (app_toasts s ++ [(message, type)])).

(** [Promise.all([a, b])] over two promises that were both started. *)
Definition promiseBoth {W A B : Type} (a : M W A) (b : M W B) : M W (A * B) :=
  fun w =>
    match a w with
    | (Returned x, w1) =>
        match b w1 with
        | (Returned y, w2) => (Returned (x, y), w2)
        | (Thrown e, w2) => (Thrown e, w2)
        end
    | (Thrown e, w1) =>
        match b w1 with
        | (_, w2) => (Thrown e, w2)
        end
    end.

(** [loadUserData]; the [finally] clause runs on both paths. *)
Definition loadUserData : M (AppWorld R) unit :=
  setIsDataLoading true ;;
  try_catch
    (fetched <- promiseBoth (callDb (getTasks R backend env GUEST_ID))
                            (callDb (getContacts R backend env GUEST_ID)) ;;
     setTasks (fun _ => fst fetched) ;;
     setEmailContacts (snd fetched))
    (fun _ => addToast "Failed to load data" toast_error) ;;
  setIsDataLoading false.

(** [{ ...taskData, userId: GUEST_ID }] *)
Definition ownedByGuest (taskData : Task) : Task :=
  mkTask (task_id taskData) GUEST_ID (task_title taskData) (task_description taskData)
         (task_dueDate taskData) (task_priority taskData) (task_status taskData)
         (task_createdAt taskData) (task_calendarEventUrl taskData) (task_subtasks taskData).

Definition App_addTask (taskData : Task) : M (AppWorld R) unit :=
  let newTask := ownedByGuest taskData in
  setTasks (fun prev => newTask :: prev) ;;
  try_catch
    (callDb (addTask R backend env newTask) ;;
     addToast "Task created successfully" toast_success)
    (fun _ =>
       addToast "Failed to save task" toast_error ;;
       loadUserData).

Definition App_deleteTask (taskId : string) : M (AppWorld R) unit :=
  setTasks (fun prev => filter (fun t => negb (String.eqb (task_id t) taskId)) prev) ;;
  try_catch
    (callDb (deleteTask R backend env taskId) ;;
     addToast "Task deleted" toast_success)
    (fun _ => loadUserData).

Definition App_clearCompletedTasks (confirmed : bool) : M (AppWorld R) unit :=
  if confirmed then
    try_catch
      (callDb (clearCompletedTasks R backend env GUEST_ID) ;;
       freshTasks <- callDb (getTasks R backend env GUEST_ID) ;;
       setTasks (fun _ => freshTasks) ;;
       addToast "Completed tasks cleared" toast_success)
      (fun _ => addToast "Failed to clear tasks" toast_error)
  else ret tt.

(** [updateTask]; the timer it starts hides the confetti two seconds later,
    in an event of its own that is not part of the handler. *)
Definition App_updateTask (updatedTask : Task) : M (AppWorld R) unit :=
  s <- readState ;;
  (match find (fun t => String.eqb (task_id t) (task_id updatedTask)) (app_tasks s) with
   | Some prevTask =>
       if (negb (TaskStatus_eqb (task_status prevTask) COMPLETED)
           && TaskStatus_eqb (task_status updatedTask) COMPLETED)%bool
       then setShowConfetti true ;; addToast "Great job!" toast_success
       else ret tt
   | None => ret tt
   end) ;;
  setTasks (replaceById task_id updatedTask) ;;
  try_catch (callDb (updateTask R backend env updatedTask)) (fun _ => loadUserData).

Definition App_addEmail (uuid : string) : M (AppWorld R) unit :=
  s <- readState ;;
  if (String.eqb (app_newEmailAddress s) ""
      || negb (JS.includes (app_newEmailAddress s) "@"))%bool
  then ret tt
  else
    let newContact := mkEmailContact uuid GUEST_ID (trim (app_newEmailAddress s)) true in
    try_catch
      (callDb (addContact R backend env newContact) ;;
       freshContacts <- callDb (getContacts R backend env GUEST_ID) ;;
       setEmailContacts freshContacts ;;
       setNewEmailAddress "" ;;
       addToast "Email contact added" toast_success)
      (fun _ => addToast "Failed to add email" toast_error).

Definition App_deleteEmail (contactId : string) : M (AppWorld R) unit :=
  try_catch
    (callDb (deleteContact R backend env contactId) ;;
     freshContacts <- callDb (getContacts R backend env GUEST_ID) ;;
     setEmailContacts freshContacts ;;
     addToast "Email contact removed" toast_success)
    (fun _ => addToast "Failed to remove email" toast_error).

Definition App_toggleEmailActive (contactId : string) : M (AppWorld R) unit :=
  s <- readState ;;
  match find (fun c => String.eqb (contact_id c) contactId) (app_emailContacts s) with
  | Some contact =>
      let updated := mkEmailContact (contact_id contact) (contact_userId contact)
                                    (contact_address contact)
                                    (negb (contact_isActive contact)) in
      try_catch
        (callDb (updateContact R backend env updated) ;;
         freshContacts <- callDb (getContacts R backend env GUEST_ID) ;;
         setEmailContacts freshContacts)
        (fun _ => ret tt)
  | None => ret tt
  end.

Definition handle (a : Action) : M (AppWorld R) unit :=
  match a with
  | LoadUserData => loadUserData
  | AddTaskAction taskData => App_addTask taskData
  | DeleteTaskAction taskId => App_deleteTask taskId
  | ClearCompletedAction confirmed => App_clearCompletedTasks confirmed
  | UpdateTaskAction updatedTask => App_updateTask updatedTask
  | AddEmailAction uuid => App_addEmail uuid
  | DeleteEmailAction contactId => App_deleteEmail contactId
  | ToggleEmailActiveAction contactId => App_toggleEmailActive contactId
  end.

End App.

(** The component shows what the store holds for the guest. *)
Definition viewInSync {R : Type} (aw : AppWorld R) : Prop :=
  app_tasks (ui aw) = localTasks GUEST_ID (localStorage (db aw))
  /\ app_emailContacts (ui aw) = localContacts GUEST_ID (localStorage (db aw)).


(* ===================================================================== *)
(** ** The task card ([src/components/TaskItem.tsx]) *)
(* ===================================================================== *)

(** The handlers of a card build an updated task and hand it to
    [onUpdate]; each is modelled by the task it hands over, [None] when it
    returns without calling [onUpdate]. *)

(** [{ ...task, status }] *)
Definition withStatus (task : Task) (status : TaskStatus) : Task :=
  mkTask (task_id task) (task_userId task) (task_title task) (task_description task)
         (task_dueDate task) (task_priority task) status
         (task_createdAt task) (task_calendarEventUrl task) (task_subtasks task).

(** [{ ...task, subtasks }] *)
Definition withSubtasks (task : Task) (subtasks : list Subtask) : Task :=
  mkTask (task_id task) (task_userId task) (task_title task) (task_description task)
         (task_dueDate task) (task_priority task) (task_status task)
         (task_createdAt task) (task_calendarEventUrl task) (Some subtasks).

Definition handleStatusChange (task : Task) : Task :=
  withStatus task (if TaskStatus_eqb (task_status task) COMPLETED then TODO else COMPLETED).

(** [task.subtasks || []] *)
Definition subtasksOrEmpty (task : Task) : list Subtask :=
  match task_subtasks task with
  | Some subtasks => subtasks
  | None => []
  end.

(** [uuid] is the value [uuidv4()] returns. *)
Definition handleAddSubtask (uuid newSubtaskTitle : string) (task : Task) : option Task :=
  if String.eqb (trim newSubtaskTitle) "" then None
  else
    let newSubtask := mkSubtask uuid newSubtaskTitle false in
    Some (withSubtasks task (subtasksOrEmpty task ++ [newSubtask])).

Definition toggleSubtask (subtaskId : string) (task : Task) : option Task :=
  match task_subtasks task with
  | None => None
  | Some subtasks =>
      let updatedSubtasks :=
        map (fun st =>
               if String.eqb (subtask_id st) subtaskId
               then mkSubtask (subtask_id st) (subtask_title st)
                              (negb (subtask_isCompleted st))
               else st) subtasks in
      Some (withSubtasks task updatedSubtasks)
  end.

Definition deleteSubtask (subtaskId : string) (task : Task) : option Task :=
  match task_subtasks task with
  | None => None
  | Some subtasks =>
      let updatedSubtasks :=
        filter (fun st => negb (String.eqb (subtask_id st) subtaskId)) subtasks in
      Some (withSubtasks task updatedSubtasks)
  end.

(* ===================================================================== *)
(** ** The analytics view ([src/components/LoginPage.tsx]) *)
(* ===================================================================== *)

(** The figures [AnalyticsView] computes before it renders. *)
Record Statistics : Type := mkStatistics {
  stat_total : nat;
  stat_completed : nat;
  stat_inProgress : nat;
  stat_todo : nat;
  stat_completionRate : option Z;
  stat_overdue : nat
}.

Section Analytics.

Variable parseDate : string -> JS.Date.

(** [AnalyticsView], with the reading [now] of [new Date()]; the
    completion rate is a number, [None] standing for NaN. *)
Definition AnalyticsView (now : Z) (tasks : list Task) : Statistics :=
  let total := List.length tasks in
  let completed :=
    List.length (filter (fun t => TaskStatus_eqb (task_status t) COMPLETED) tasks) in
  let inProgress :=
    List.length (filter (fun t => TaskStatus_eqb (task_status t) IN_PROGRESS) tasks) in
  let todo :=
    List.length (filter (fun t => TaskStatus_eqb (task_status t) TODO) tasks) in
  let completionRate :=
    if (total =? 0)%nat then Some 0
    else JS.Math_round
           (PrimFloat.mul
              (PrimFloat.div (JS.toNumber (Z.of_nat completed))
                             (JS.toNumber (Z.of_nat total)))
              (JS.toNumber 100)) in
  let overdue :=
    List.length
      (filter (fun t =>
                 (negb (TaskStatus_eqb (task_status t) COMPLETED)
                  && JS.Date_lt (newDate parseDate (task_dueDate t)) (Some now))%bool)
              tasks) in
  mkStatistics total completed inProgress todo completionRate overdue.

End Analytics.

(** Text of ASCII characters only.  On such text [JS.toLowerCase] and
    [trim] are [String.prototype.toLowerCase] and [String.prototype.trim];
    beyond it the runtime also lowers letters and strips spaces that one
    byte does not hold. *)
Definition isAscii (s : string) : bool :=
  forallb (fun c => Nat.ltb (nat_of_ascii c) 128) (list_ascii_of_string s).

(** [q] occurs in [s] as a contiguous piece. *)
Definition occursIn (q s : string) : Prop :=
  exists pre post : string, s = (pre ++ q ++ post)%string.

(* ===================================================================== *)
(** ** A reference runtime, for closed examples *)
(* ===================================================================== *)

Module Reference.

(** Days from 1970-01-01 to the civil date [y]-[m]-[d] (Gregorian). *)
Definition daysFromCivil (y m d : Z) : Z :=
  let y' := if m <=? 2 then y - 1 else y in
  let era := y' / 400 in
  let yoe := y' - era * 400 in
  let doy := (153 * (if m >? 2 then m - 3 else m + 9) + 2) / 5 + d - 1 in
  let doe := yoe * 365 + yoe / 4 - yoe / 100 + doy in
  era * 146097 + doe - 719468.

Definition digit (c : ascii) : option Z :=
  let n := nat_of_ascii c in
  if (Nat.leb 48 n && Nat.leb n 57)%bool then Some (Z.of_nat (n - 48)) else None.

Fixpoint digits (acc : Z) (l : list ascii) : option Z :=
  match l with
  | [] => Some acc
  | c :: l' =>
      match digit c with
      | Some v => digits (10 * acc + v) l'
      | None => None
      end
  end.

Definition isLeap (y : Z) : bool :=
  ((y mod 4 =? 0) && (negb (y mod 100 =? 0) || (y mod 400 =? 0)))%bool.

Definition daysInMonth (y m : Z) : Z :=
  if m =? 2 then (if isLeap y then 29 else 28)
  else if (m =? 4) || (m =? 6) || (m =? 9) || (m =? 11) then 30
  else 31.

(** The time value of an ISO-8601 instant written as [toISOString] writes
    it, "YYYY-MM-DDTHH:mm:ss.sssZ"; any other text is not a date here.
    The runtime's own parser accepts more texts: it is a parameter of the
    derivations ([parseDate]), and this one serves the closed examples,
    whose timestamps have this form or are not dates at all. *)
Definition parseISO (s : string) : JS.Date :=
  match list_ascii_of_string s with
  | [y1; y2; y3; y4; "-"%char; m1; m2; "-"%char; d1; d2; "T"%char;
     h1; h2; ":"%char; n1; n2; ":"%char; s1; s2; "."%char; f1; f2; f3; "Z"%char] =>
      match digits 0 [y1; y2; y3; y4], digits 0 [m1; m2], digits 0 [d1; d2],
            digits 0 [h1; h2], digits 0 [n1; n2], digits 0 [s1; s2],
            digits 0 [f1; f2; f3] with
      | Some y, Some m, Some d, Some h, Some n, Some sec, Some ms =>
          if ((1 <=? m) && (m <=? 12) && (1 <=? d) && (d <=? daysInMonth y m)
              && (h <=? 23) && (n <=? 59) && (sec <=? 59))%bool
          then Some ((((daysFromCivil y m d * 24 + h) * 60 + n) * 60 + sec) * 1000 + ms)
          else None
      | _, _, _, _, _, _, _ => None
      end
  | _ => None
  end.

(** The calendar day of an instant in the UTC time zone. *)
Definition utcDay (t : Z) : Z := t / 86400000.

(** A backend that cannot be reached: every SDK call rejects. *)
Definition unreachable (T : Type) (c : Firebase T) (r : unit) : outcome T * unit :=
  (Thrown (FirebaseError "unavailable"), r).

(** A backend that accepts every call: writes resolve, queries find no
    document, and every sign-in resolves to the same account. *)
Definition someAccount : AuthUser := mkAuthUser "uid-1" None None.

Definition accepting (T : Type) (c : Firebase T) (r : unit) : outcome T * unit :=
  match c in Firebase T return outcome T * unit with
  | setDoc _ _ _ _ => (Returned tt, r)
  | updateDoc _ _ _ => (Returned tt, r)
  | deleteDoc _ _ => (Returned tt, r)
  | getDocs _ _ => (Returned [], r)
  | createUserWithEmailAndPassword _ _ => (Returned someAccount, r)
  | signInWithEmailAndPassword _ _ => (Returned someAccount, r)
  | sendPasswordResetEmail _ => (Returned tt, r)
  | signInWithPopup _ => (Returned someAccount, r)
  | signOut => (Returned tt, r)
  end.

(** A rendering of time values that is enough for examples. *)
Definition isoOf (ms : Z) : string := JS.numberToString ms.

Definition task (taskId owner due created : string) (st : TaskStatus) : Task :=
  mkTask taskId owner ("task " ++ taskId) "" due MEDIUM st created None None.

Definition world (ls : LocalStorage) : World unit := mkWorld ls tt [] 0.

End Reference.

(* ===================================================================== *)
(** ** Facts about the runtime's sort *)
(* ===================================================================== *)

Local Open Scope list_scope.
Local Open Scope Z_scope.

Section SortFacts.

Context {A : Type}.
Variable comparefn : A -> A -> option Z.

Lemma insert_Permutation (x : A) (l : list A) :
  Permutation (JS.insert comparefn x l) (x :: l).
Proof.
  induction l as [|y l IH]; simpl.
  - apply Permutation_refl.
  - destruct (JS.SortCompare comparefn x y <=? 0).
    + apply Permutation_refl.
    + eapply perm_trans; [apply perm_skip, IH | apply perm_swap].
Qed.

Lemma sort_Permutation (l : list A) : Permutation (JS.sort comparefn l) l.
Proof.
  induction l as [|x l IH]; simpl.
  - apply perm_nil.
  - eapply perm_trans; [apply insert_Permutation | apply perm_skip, IH].
Qed.

Lemma sort_In (l : list A) (a : A) : In a (JS.sort comparefn l) <-> In a l.
Proof.
  split; apply Permutation_in;
    [apply sort_Permutation | apply Permutation_sym, sort_Permutation].
Qed.

Variable key : A -> Z.

Lemma keyed_tail (x : A) (l : list A) : keyed comparefn key (x :: l) -> keyed comparefn key l.
Proof. intros H a b Ha Hb. apply H; right; assumption. Qed.

Lemma keyed_Permutation (l l' : list A) : Permutation l l' -> keyed comparefn key l -> keyed comparefn key l'.
Proof.
  intros HP H a b Ha Hb.
  apply H; eapply Permutation_in; try eassumption; apply Permutation_sym, HP.
Qed.

Lemma insert_sorted (x : A) (l : list A) :
  keyed comparefn key (x :: l) -> StronglySorted (keyLe key) l -> StronglySorted (keyLe key) (JS.insert comparefn x l).
Proof.
  intros Hk Hs. induction Hs as [|y l Hs IH Hy]; simpl.
  - constructor; constructor.
  - destruct (Z.leb_spec (JS.SortCompare comparefn x y) 0) as [Hle|Hgt];
      rewrite (Hk x y) in * by (simpl; auto).
    + constructor.
      * constructor; assumption.
      * constructor.
        -- unfold keyLe. lia.
        -- eapply Forall_impl; [|exact Hy]. unfold keyLe. intros; lia.
    + constructor.
      * apply IH. intros a b Ha Hb. apply Hk; simpl in *; tauto.
      * apply Forall_forall. intros z Hz.
        apply (Permutation_in _ (insert_Permutation x l)) in Hz.
        destruct Hz as [<-|Hz].
        -- unfold keyLe. lia.
        -- rewrite Forall_forall in Hy. apply Hy, Hz.
Qed.

Lemma sort_sorted (l : list A) : keyed comparefn key l -> StronglySorted (keyLe key) (JS.sort comparefn l).
Proof.
  induction l as [|x l IH]; simpl; intros Hk.
  - constructor.
  - apply insert_sorted.
    + eapply keyed_Permutation; [|exact Hk].
      apply perm_skip, Permutation_sym, sort_Permutation.
    + apply IH. eapply keyed_tail, Hk.
Qed.

(** Stability: the elements that share a key keep their relative order. *)
Lemma insert_filter_key (k : Z) (x : A) (l : list A) :
  keyed comparefn key (x :: l) ->
  filter (fun a => key a =? k) (JS.insert comparefn x l)
  = filter (fun a => key a =? k) (x :: l).
Proof.
  induction l as [|y l IH]; intros Hk; [reflexivity|].
  simpl JS.insert.
  destruct (Z.leb_spec (JS.SortCompare comparefn x y) 0) as [Hle|Hgt]; [reflexivity|].
  rewrite (Hk x y) in Hgt by (simpl; auto).
  change (filter (fun a => key a =? k) (y :: JS.insert comparefn x l))
    with (if key y =? k then y :: filter (fun a => key a =? k) (JS.insert comparefn x l)
          else filter (fun a => key a =? k) (JS.insert comparefn x l)).
  rewrite IH by (intros a b Ha Hb; apply Hk; simpl in *; tauto).
  simpl.
  destruct (Z.eqb_spec (key y) k), (Z.eqb_spec (key x) k); try reflexivity; lia.
Qed.

Lemma sort_filter_key (k : Z) (l : list A) :
  keyed comparefn key l ->
  filter (fun a => key a =? k) (JS.sort comparefn l) = filter (fun a => key a =? k) l.
Proof.
  induction l as [|x l IH]; intros Hk; [reflexivity|].
  simpl JS.sort. rewrite insert_filter_key.
  - simpl. rewrite IH by (eapply keyed_tail, Hk). reflexivity.
  - eapply keyed_Permutation; [|exact Hk].
    apply perm_skip, Permutation_sym, sort_Permutation.
Qed.

End SortFacts.

(* ===================================================================== *)
(** ** Facts about the grouping *)
(* ===================================================================== *)

Lemma Bucket_eqb_eq (a b : Bucket) : Bucket_eqb a b = true <-> a = b.
Proof. destruct a, b; simpl; split; intros H; try reflexivity; discriminate. Qed.

Section GroupingFacts.

Variable parseDate : string -> JS.Date.
Variable localDay : Z -> Z.

(** One turn of the loop appends the task to the bucket of the
    specification and to no other. *)
Lemma placeTask_bucket (now : Z) (g : TaskGroups) (t : Task) (b : Bucket) :
  bucket (placeTask parseDate localDay now g t) b
  = bucket g b ++ (if Bucket_eqb (bucketBySpec parseDate localDay now t) b then [t] else []).
Proof.
  unfold placeTask, bucketBySpec, newDate, toDateString.
  destruct (task_status t); simpl;
    try (destruct b; simpl; rewrite ?app_nil_r; reflexivity);
    destruct (parseDate (task_dueDate t)) as [due|]; simpl;
    try (destruct b; simpl; rewrite ?app_nil_r; reflexivity);
    destruct (localDay due =? localDay now), (due <? now); simpl;
    destruct b; simpl; rewrite ?app_nil_r; reflexivity.
Qed.

Lemma fold_placeTask_bucket (now : Z) (l : list Task) (g : TaskGroups) (b : Bucket) :
  bucket (fold_left (placeTask parseDate localDay now) l g) b
  = bucket g b ++ filter (fun t => Bucket_eqb (bucketBySpec parseDate localDay now t) b) l.
Proof.
  revert g. induction l as [|t l IH]; intros g; simpl.
  - rewrite app_nil_r. reflexivity.
  - rewrite IH, placeTask_bucket.
    destruct (Bucket_eqb (bucketBySpec parseDate localDay now t) b).
    + rewrite <- app_assoc. reflexivity.
    + rewrite app_nil_r. reflexivity.
Qed.

(** Every bucket of [groupTasks] is its members, sorted. *)
Lemma groupTasks_bucket (now : Z) (searchQuery : string) (tasks : list Task) (b : Bucket) :
  bucket (groupTasks parseDate localDay now searchQuery tasks) b
  = JS.sort (comparatorOf parseDate b) (bucketMembers parseDate localDay now searchQuery tasks b).
Proof.
  unfold groupTasks, bucketMembers.
  set (l := filter (matchesSearch searchQuery) tasks).
  pose proof (fold_placeTask_bucket now l noGroups b) as H.
  destruct b; simpl in *; rewrite H; reflexivity.
Qed.

Lemma bucketMembers_In (now : Z) (searchQuery : string) (tasks : list Task) (b : Bucket) (t : Task) :
  In t (bucketMembers parseDate localDay now searchQuery tasks b)
  <-> In t (filter (matchesSearch searchQuery) tasks)
      /\ bucketBySpec parseDate localDay now t = b.
Proof.
  unfold bucketMembers. rewrite filter_In, Bucket_eqb_eq. tauto.
Qed.

Lemma buckets_Permutation (now : Z) (l : list Task) :
  Permutation
    (filter (fun t => Bucket_eqb (bucketBySpec parseDate localDay now t) Overdue) l
     ++ filter (fun t => Bucket_eqb (bucketBySpec parseDate localDay now t) Today) l
     ++ filter (fun t => Bucket_eqb (bucketBySpec parseDate localDay now t) Upcoming) l
     ++ filter (fun t => Bucket_eqb (bucketBySpec parseDate localDay now t) Completed) l)
    l.
Proof.
  induction l as [|t l IH]; simpl.
  - apply perm_nil.
  - destruct (bucketBySpec parseDate localDay now t); simpl.
    + apply perm_skip, IH.
    + apply Permutation_sym, Permutation_cons_app, Permutation_sym, IH.
    + apply Permutation_sym.
      rewrite app_assoc. apply Permutation_cons_app.
      rewrite <- app_assoc. apply Permutation_sym, IH.
    + apply Permutation_sym.
      rewrite 2 app_assoc. apply Permutation_cons_app.
      rewrite <- 2 app_assoc. apply Permutation_sym, IH.
Qed.


(** The four cases of [bucketBySpec], in the words of the specification. *)
Lemma bucketBySpec_cases (now : Z) (t : Task) :
  (task_status t = COMPLETED -> bucketBySpec parseDate localDay now t = Completed)
  /\ (forall due, task_status t <> COMPLETED -> parseDate (task_dueDate t) = Some due ->
      due < now -> localDay due <> localDay now ->
      bucketBySpec parseDate localDay now t = Overdue)
  /\ (forall due, task_status t <> COMPLETED -> parseDate (task_dueDate t) = Some due ->
      localDay due = localDay now ->
      bucketBySpec parseDate localDay now t = Today)
  /\ (forall due, task_status t <> COMPLETED -> parseDate (task_dueDate t) = Some due ->
      now <= due -> localDay due <> localDay now ->
      bucketBySpec parseDate localDay now t = Upcoming)
  /\ (task_status t <> COMPLETED -> parseDate (task_dueDate t) = None ->
      bucketBySpec parseDate localDay now t = Upcoming).
Proof.
  unfold bucketBySpec.
  repeat split; intros;
    destruct (task_status t); try congruence;
    repeat match goal with
           | H : parseDate _ = _ |- _ => rewrite H
           end; try reflexivity;
    repeat match goal with
           | |- context [?a =? ?b] => destruct (Z.eqb_spec a b)
           | |- context [?a <? ?b] => destruct (Z.ltb_spec a b)
           end; try reflexivity; try lia; try congruence.
Qed.

(** When the local calendar day never goes back as time goes on, the
    tasks left for [Upcoming] that have a due date are due after today. *)
Lemma upcoming_due_after_today (now : Z) (t : Task) (due : Z) :
  (forall a b, a <= b -> localDay a <= localDay b) ->
  bucketBySpec parseDate localDay now t = Upcoming ->
  parseDate (task_dueDate t) = Some due ->
  localDay now < localDay due.
Proof.
  intros Hmono Hb Hdue. unfold bucketBySpec in Hb. rewrite Hdue in Hb.
  destruct (task_status t); try discriminate;
    destruct (Z.eqb_spec (localDay due) (localDay now)); try discriminate;
    destruct (Z.ltb_spec due now); try discriminate;
    specialize (Hmono now due); lia.
Qed.

(** Membership in a bucket of [groupTasks]. *)
Lemma groupTasks_In (now : Z) (searchQuery : string) (tasks : list Task) (t : Task) (b : Bucket) :
  In t (bucket (groupTasks parseDate localDay now searchQuery tasks) b)
  <-> In t (filter (matchesSearch searchQuery) tasks)
      /\ bucketBySpec parseDate localDay now t = b.
Proof.
  rewrite groupTasks_bucket, sort_In. apply bucketMembers_In.
Qed.

(** C3: for every task list, search query and [now], a task is in a
    bucket of [groupTasks] exactly when it passes the search filter and
    the bucket is the one the specification assigns to it (completed:
    status COMPLETED whatever the due date; overdue: not completed, due
    before [now] on another calendar date than today's; today: not
    completed, due on today's date; upcoming: every other task), and the
    four buckets together are a rearrangement of the filtered tasks, so
    every filtered task lands in exactly one bucket. *)
Theorem groupTasks_partitions (now : Z) (searchQuery : string) (tasks : list Task) :
  let g := groupTasks parseDate localDay now searchQuery tasks in
  let filteredTasks := filter (matchesSearch searchQuery) tasks in
  (forall t b, In t (bucket g b)
               <-> In t filteredTasks /\ bucketBySpec parseDate localDay now t = b)
  /\ Permutation (overdue g ++ today g ++ upcoming g ++ completed g) filteredTasks.
Proof.
  intros g filteredTasks. split.
  - intros t b. apply groupTasks_In.
  - eapply perm_trans; [|apply (buckets_Permutation now filteredTasks)].
    change (overdue g) with (bucket g Overdue).
    change (today g) with (bucket g Today).
    change (upcoming g) with (bucket g Upcoming).
    change (completed g) with (bucket g Completed).
    unfold g. rewrite !groupTasks_bucket.
    repeat apply Permutation_app; apply sort_Permutation.
Qed.

(** C8: a task of the list that passes the search filter, is not
    completed and has a due-date text that does not parse is placed by
    [groupTasks], which is a total function, in the upcoming bucket and
    in no other. *)
Theorem unparseable_due_is_upcoming
  (now : Z) (searchQuery : string) (tasks : list Task) (t : Task) :
  In t tasks ->
  matchesSearch searchQuery t = true ->
  task_status t <> COMPLETED ->
  parseDate (task_dueDate t) = None ->
  exists g, groupTasks parseDate localDay now searchQuery tasks = g
            /\ In t (upcoming g)
            /\ ~ In t (overdue g) /\ ~ In t (today g) /\ ~ In t (completed g).
Proof.
  intros Hin Hq Hst Hdue. eexists; split; [reflexivity|].
  pose proof (groupTasks_In now searchQuery tasks) as Hb.
  assert (Hup : bucketBySpec parseDate localDay now t = Upcoming)
    by (apply bucketBySpec_cases; assumption).
  assert (Hf : In t (filter (matchesSearch searchQuery) tasks))
    by (apply filter_In; split; assumption).
  repeat split.
  - apply (Hb t Upcoming). split; assumption.
  - intros H. apply (Hb t Overdue) in H. destruct H as [_ H]. congruence.
  - intros H. apply (Hb t Today) in H. destruct H as [_ H]. congruence.
  - intros H. apply (Hb t Completed) in H. destruct H as [_ H]. congruence.
Qed.


(** *** Order inside the buckets *)

Lemma sorter_keyed (l : list Task) :
  Forall (dueParses parseDate) l -> keyed (sorter parseDate) (dueKey parseDate) l.
Proof.
  intros Hall a b Ha Hb. rewrite Forall_forall in Hall.
  pose proof (Hall a Ha) as Pa. pose proof (Hall b Hb) as Pb.
  unfold dueParses in Pa, Pb.
  unfold JS.SortCompare, sorter, newDate, JS.getTime, JS.minus, dueKey.
  destruct (parseDate (task_dueDate a)), (parseDate (task_dueDate b)); congruence.
Qed.

Lemma mostRecentFirst_keyed (l : list Task) :
  Forall (creationParses parseDate) l ->
  keyed (mostRecentFirst parseDate) (recencyKey parseDate) l.
Proof.
  intros Hall a b Ha Hb. rewrite Forall_forall in Hall.
  pose proof (Hall a Ha) as Pa. pose proof (Hall b Hb) as Pb.
  unfold creationParses in Pa, Pb.
  unfold JS.SortCompare, mostRecentFirst, newDate, JS.getTime, JS.minus, recencyKey.
  destruct (parseDate (task_createdAt a)), (parseDate (task_createdAt b));
    try congruence. lia.
Qed.

Lemma StronglySorted_weaken {A : Type} (P Q : A -> A -> Prop) (l : list A) :
  (forall a b, P a b -> Q a b) -> StronglySorted P l -> StronglySorted Q l.
Proof.
  intros HPQ Hs. induction Hs as [|a l Hs IH Ha]; constructor.
  - exact IH.
  - eapply Forall_impl; [|exact Ha]. intros b. apply HPQ.
Qed.

Lemma keyLe_inDueOrder (a b : Task) :
  keyLe (dueKey parseDate) a b -> inDueOrder parseDate a b.
Proof.
  unfold keyLe, dueKey, inDueOrder.
  destruct (parseDate (task_dueDate a)), (parseDate (task_dueDate b)); auto.
Qed.

Lemma keyLe_inRecencyOrder (a b : Task) :
  keyLe (recencyKey parseDate) a b -> inRecencyOrder parseDate a b.
Proof.
  unfold keyLe, recencyKey, inRecencyOrder.
  destruct (parseDate (task_createdAt a)), (parseDate (task_createdAt b)); auto.
  lia.
Qed.

Lemma filter_hasDue (k : Z) (l : list Task) :
  Forall (dueParses parseDate) l ->
  filter (hasDue parseDate k) l = filter (fun t => dueKey parseDate t =? k) l.
Proof.
  intros Hall. apply filter_ext_in. intros t Ht.
  rewrite Forall_forall in Hall. specialize (Hall t Ht).
  unfold dueParses in Hall. unfold hasDue, dueKey.
  destruct (parseDate (task_dueDate t)); congruence.
Qed.

Lemma filter_hasCreation (k : Z) (l : list Task) :
  Forall (creationParses parseDate) l ->
  filter (hasCreation parseDate k) l = filter (fun t => recencyKey parseDate t =? - k) l.
Proof.
  intros Hall. apply filter_ext_in. intros t Ht.
  rewrite Forall_forall in Hall. specialize (Hall t Ht).
  unfold creationParses in Hall. unfold hasCreation, recencyKey.
  destruct (parseDate (task_createdAt t)) as [x|]; [|congruence].
  destruct (Z.eqb_spec x k), (Z.eqb_spec (- x) (- k)); try reflexivity; lia.
Qed.

Lemma Forall_sort {A : Type} (cmp : A -> A -> option Z) (P : A -> Prop) (l : list A) :
  Forall P l -> Forall P (JS.sort cmp l).
Proof.
  rewrite !Forall_forall. intros H x Hx. apply H, (sort_In cmp), Hx.
Qed.

(** A list of tasks that all have a due timestamp is sorted by [sorter]
    into ascending due order, stably. *)
Lemma sort_by_due (l : list Task) :
  Forall (dueParses parseDate) l ->
  StronglySorted (inDueOrder parseDate) (JS.sort (sorter parseDate) l)
  /\ forall k, filter (hasDue parseDate k) (JS.sort (sorter parseDate) l)
               = filter (hasDue parseDate k) l.
Proof.
  intros Hall. split.
  - eapply StronglySorted_weaken; [apply keyLe_inDueOrder|].
    apply sort_sorted, sorter_keyed, Hall.
  - intros k. rewrite !filter_hasDue by (try apply Forall_sort; exact Hall).
    apply sort_filter_key, sorter_keyed, Hall.
Qed.

Lemma sort_by_recency (l : list Task) :
  Forall (creationParses parseDate) l ->
  StronglySorted (inRecencyOrder parseDate) (JS.sort (mostRecentFirst parseDate) l)
  /\ forall k, filter (hasCreation parseDate k) (JS.sort (mostRecentFirst parseDate) l)
               = filter (hasCreation parseDate k) l.
Proof.
  intros Hall. split.
  - eapply StronglySorted_weaken; [apply keyLe_inRecencyOrder|].
    apply sort_sorted, mostRecentFirst_keyed, Hall.
  - intros k. rewrite !filter_hasCreation by (try apply Forall_sort; exact Hall).
    apply sort_filter_key, mostRecentFirst_keyed, Hall.
Qed.

(** The members of the overdue and today buckets all have a due
    timestamp: a text that does not parse sends the task to upcoming. *)
Lemma members_dueParses (now : Z) (searchQuery : string) (tasks : list Task) (b : Bucket) :
  b = Overdue \/ b = Today ->
  Forall (dueParses parseDate) (bucketMembers parseDate localDay now searchQuery tasks b).
Proof.
  intros Hb. apply Forall_forall. intros t Ht.
  apply bucketMembers_In in Ht. destruct Ht as [_ Ht].
  unfold dueParses. unfold bucketBySpec in Ht.
  destruct (parseDate (task_dueDate t)); [discriminate|].
  destruct (task_status t), Hb; congruence.
Qed.

(** C5, as the code has it: for every task list, search query and [now],
    the overdue and the today bucket are in ascending order of due
    timestamp, and tasks with the same due timestamp keep the relative
    order they have in the task list; the same holds of the upcoming
    bucket when the due date of each of its members parses; the completed
    bucket is in descending order of creation timestamp, equal timestamps
    keeping their relative order, when the creation date of each of its
    members parses. *)
Theorem buckets_sorted_stable (now : Z) (searchQuery : string) (tasks : list Task) :
  let g := groupTasks parseDate localDay now searchQuery tasks in
  let members := bucketMembers parseDate localDay now searchQuery tasks in
  (StronglySorted (inDueOrder parseDate) (overdue g)
   /\ forall k, filter (hasDue parseDate k) (overdue g)
                = filter (hasDue parseDate k) (members Overdue))
  /\ (StronglySorted (inDueOrder parseDate) (today g)
      /\ forall k, filter (hasDue parseDate k) (today g)
                   = filter (hasDue parseDate k) (members Today))
  /\ (Forall (dueParses parseDate) (members Upcoming) ->
      StronglySorted (inDueOrder parseDate) (upcoming g)
      /\ forall k, filter (hasDue parseDate k) (upcoming g)
                   = filter (hasDue parseDate k) (members Upcoming))
  /\ (Forall (creationParses parseDate) (members Completed) ->
      StronglySorted (inRecencyOrder parseDate) (completed g)
      /\ forall k, filter (hasCreation parseDate k) (completed g)
                   = filter (hasCreation parseDate k) (members Completed)).
Proof.
  intros g members.
  change (overdue g) with (bucket g Overdue).
  change (today g) with (bucket g Today).
  change (upcoming g) with (bucket g Upcoming).
  change (completed g) with (bucket g Completed).
  unfold g, members. rewrite !groupTasks_bucket. simpl comparatorOf.
  repeat split; try intros H.
  1, 2: apply sort_by_due, members_dueParses; auto.
  1, 2: apply sort_by_due, members_dueParses; auto.
  1, 2: apply sort_by_due, H.
  1, 2: apply sort_by_recency, H.
Qed.

End GroupingFacts.

(* ===================================================================== *)
(** ** Facts about the derived figures *)
(* ===================================================================== *)

Lemma nearestForCounts_sound (n c : Z) (steps : nat) :
  nearestForCounts n c steps = true ->
  forall c', c - Z.of_nat steps <= c' <= c -> percentageIsNearest c' n = true.
Proof.
  revert c. induction steps as [|steps IH]; cbn [nearestForCounts]; intros c H c' Hc';
    apply andb_prop in H; destruct H as [H1 H2].
  - assert (c' = c) by lia. subst. exact H1.
  - destruct (Z.eq_dec c' c) as [->|Hne]; [exact H1|].
    apply (IH (c - 1)); [exact H2|lia].
Qed.

Lemma nearestUpTo_sound (bound : nat) :
  nearestUpTo bound = true ->
  forall n c, 0 < n <= Z.of_nat bound -> 0 <= c <= n -> percentageIsNearest c n = true.
Proof.
  induction bound as [|bound IH]; cbn [nearestUpTo]; intros H n c Hn Hc; [lia|].
  apply andb_prop in H. destruct H as [H1 H2].
  destruct (Z.eq_dec n (Z.of_nat (S bound))) as [->|Hne].
  - eapply nearestForCounts_sound; [exact H1|lia].
  - apply IH; [exact H2|lia|exact Hc].
Qed.

(** Checked by evaluation of the double-precision operations. *)
Lemma nearestUpTo_300 : nearestUpTo 300 = true.
Proof. vm_compute. reflexivity. Qed.

(** An exact half can go either way, as the double-precision product
    decides: 100 * 23 / 40 = 57.5 gives 57, and 100 * 1 / 8 = 12.5 gives 13. *)
Example percentage_of_exact_halves :
  percentage 23 40 = Some 57 /\ percentage 1 8 = Some 13.
Proof. split; vm_compute; reflexivity. Qed.

Section FigureFacts.

Variable parseDate : string -> JS.Date.
Variable localDay : Z -> Z.

Lemma dueToday_code (now : Z) (t : Task) :
  JS.DateString_eqb
    (toDateString localDay (newDate parseDate (task_dueDate t)))
    (toDateString localDay (Some now))
  = dueToday parseDate localDay now t.
Proof.
  unfold dueToday, newDate, toDateString.
  destruct (parseDate (task_dueDate t)); reflexivity.
Qed.

Lemma getTodayProgress_counts (now : Z) (tasks : list Task) :
  let dueTodayTasks := filter (dueToday parseDate localDay now) tasks in
  getTodayProgress parseDate localDay now tasks
  = if (List.length dueTodayTasks =? 0)%nat then Some 0
    else percentage (Z.of_nat (List.length (filter isCompleted dueTodayTasks)))
                    (Z.of_nat (List.length dueTodayTasks)).
Proof.
  unfold getTodayProgress.
  rewrite (filter_ext _ (dueToday parseDate localDay now))
    by (intros t; apply dueToday_code).
  reflexivity.
Qed.

(** C4, as the code has it: for every task list and [now], let [n] be the
    number of tasks of the whole list (whatever their status, and with no
    search filter) whose due calendar date is today's, and [c] the number
    of those with status COMPLETED.  The progress is 0 when [n] is 0 and
    otherwise Math.round((c / n) * 100) evaluated in double precision;
    three such tasks with one completed give 33; and up to 300 such
    tasks the result is an integer nearest to 100 * c / n, between 0 and
    100. *)
Theorem getTodayProgress_spec (now : Z) (tasks : list Task) :
  let dueTodayTasks := filter (dueToday parseDate localDay now) tasks in
  let n := Z.of_nat (List.length dueTodayTasks) in
  let c := Z.of_nat (List.length (filter isCompleted dueTodayTasks)) in
  getTodayProgress parseDate localDay now tasks
  = (if n =? 0 then Some 0 else percentage c n)
  /\ (n = 0 -> getTodayProgress parseDate localDay now tasks = Some 0)
  /\ (n = 3 -> c = 1 -> getTodayProgress parseDate localDay now tasks = Some 33)
  /\ (0 < n <= 300 ->
      exists p, getTodayProgress parseDate localDay now tasks = Some p
                /\ nearestPercent c n p /\ 0 <= p <= 100).
Proof.
  intros dueTodayTasks n c.
  assert (Hc : 0 <= c <= n).
  { unfold c, n. split; [lia|]. apply inj_le, filter_length_le. }
  assert (E : getTodayProgress parseDate localDay now tasks
              = if n =? 0 then Some 0 else percentage c n).
  { rewrite getTodayProgress_counts. fold dueTodayTasks. unfold n, c.
    destruct (List.length dueTodayTasks); reflexivity. }
  split; [exact E|]. rewrite E. repeat split.
  - intros ->. reflexivity.
  - intros -> ->. vm_compute. reflexivity.
  - intros Hn.
    pose proof (nearestUpTo_sound 300 nearestUpTo_300 n c) as Hp.
    unfold percentageIsNearest in Hp.
    destruct (Z.eqb_spec n 0); [lia|].
    destruct (percentage c n) as [p|].
    + exists p. specialize (Hp ltac:(lia) Hc).
      apply andb_prop in Hp. destruct Hp as [Hp H100].
      apply andb_prop in Hp. destruct Hp as [Hp H0].
      unfold nearestPercent. split; [reflexivity|]. lia.
    + specialize (Hp ltac:(lia) Hc). discriminate.
Qed.

Lemma activeOn_code (d : Z) (t : Task) :
  (JS.DateString_eqb (toDateString localDay (newDate parseDate (task_createdAt t)))
                     (JS.CalendarDay d)
   || JS.DateString_eqb (toDateString localDay (newDate parseDate (task_dueDate t)))
                        (JS.CalendarDay d))%bool
  = activeOn parseDate localDay d t.
Proof.
  unfold activeOn, newDate, toDateString.
  destruct (parseDate (task_createdAt t)), (parseDate (task_dueDate t)); reflexivity.
Qed.

Lemma heatmapEntry_spec (now : Z) (tasks : list Task) (i : Z) :
  let d := localDay now - i in
  let e := heatmapEntry parseDate localDay now tasks i in
  entry_day e = JS.dayLabel d
  /\ entry_count e = List.length (filter (activeOn parseDate localDay d) tasks)
  /\ entry_value e = Qmin (inject_Z (Z.of_nat (entry_count e)) / 8 * 100) 100.
Proof.
  unfold heatmapEntry; simpl.
  rewrite (filter_ext _ (activeOn parseDate localDay (localDay now - i)))
    by (intros t; apply activeOn_code).
  repeat split.
Qed.

(** C6: for every task list, the weekly heatmap has one entry for each of
    the 7 calendar days that end today, oldest first; the entry of a day
    is labelled with its weekday, its count is the number of tasks whose
    creation or due timestamp falls on that day (a task is counted once,
    also when both do), and its value is that count divided by 8, times
    100, capped at 100. *)
Theorem getWeeklyHeatmap_spec (now : Z) (tasks : list Task) :
  let h := getWeeklyHeatmap parseDate localDay now tasks in
  let D := localDay now in
  let days := [D - 6; D - 5; D - 4; D - 3; D - 2; D - 1; D - 0] in
  List.length h = 7%nat
  /\ map entry_day h = map JS.dayLabel days
  /\ map entry_count h
     = map (fun d => List.length (filter (activeOn parseDate localDay d) tasks)) days
  /\ Forall (fun e =>
               entry_value e = Qmin (inject_Z (Z.of_nat (entry_count e)) / 8 * 100) 100
               /\ (0 <= entry_value e)%Q /\ (entry_value e <= 100)%Q
               /\ (entry_count e <= List.length tasks)%nat) h.
Proof.
  intros h D days. unfold h, getWeeklyHeatmap.
  change days with (map (fun i => D - i) [6; 5; 4; 3; 2; 1; 0]). unfold D.
  split; [reflexivity|]. split; [|split].
  - rewrite !map_map. apply map_ext. intros i. apply (heatmapEntry_spec now tasks i).
  - rewrite !map_map. apply map_ext. intros i. apply (heatmapEntry_spec now tasks i).
  - apply Forall_forall. intros e He. apply in_map_iff in He.
    destruct He as (i & <- & _).
    destruct (heatmapEntry_spec now tasks i) as (_ & Hcount & Hvalue).
    cbv zeta in Hcount, Hvalue. rewrite Hvalue. repeat split.
    + apply Q.min_glb; [|discriminate].
      set (k := Z.of_nat _). assert (0 <= k) by (unfold k; lia).
      unfold Qle, Qdiv, Qmult, inject_Z; simpl. lia.
    + apply Q.le_min_r.
    + rewrite Hcount. apply filter_length_le.
Qed.

End FigureFacts.

(* ===================================================================== *)
(** ** Facts about the data service: the local store *)
(* ===================================================================== *)

Lemma filter_twice {A : Type} (p : A -> bool) (l : list A) :
  filter p (filter p l) = filter p l.
Proof.
  induction l as [|x l IH]; simpl; [reflexivity|].
  destruct (p x) eqn:E; simpl; rewrite ?E, IH; reflexivity.
Qed.







Section LocalStoreFacts.

Variable R : Type.
Variable backend : forall T : Type, Firebase T -> R -> outcome T * R.
Variable env : Env.

(** [deleteTask] when the backend was not initialised. *)
Lemma deleteTask_local (taskId : string) (w : World R) :
  remoteInitialized env = false ->
  deleteTask R backend env taskId w
  = (Returned tt,
     mkWorld (setItem TASKS
                (filter (fun t => negb (String.eqb (task_id t) taskId))
                        (stored TASKS (localStorage w)))
                (localStorage w))
             (remote w) (remoteCalls w) (dateNow w)).
Proof.
  unfold remoteInitialized, deleteTask, bind. intros ->. reflexivity.
Qed.

(** [getTasks] when the backend was not initialised. *)
Lemma getTasks_local (userId : string) (w : World R) :
  remoteInitialized env = false ->
  getTasks R backend env userId w
  = (Returned (filter (fun t => String.eqb (task_userId t) userId)
                      (stored TASKS (localStorage w))), w).
Proof.
  unfold remoteInitialized, getTasks, useFirestore, bind. intros ->. reflexivity.
Qed.


(** Where the backend was not initialised, for every id and every state
    of the store, [deleteTask] returns without error the first and the
    second time, the second call leaves the state the first call
    produced, and after the first call [getTasks] returns, for every
    owner, no task with that id. *)
Theorem deleteTask_idempotent (taskId : string) (w : World R) :
  remoteInitialized env = false ->
  let once := deleteTask R backend env taskId w in
  let twice := deleteTask R backend env taskId (snd once) in
  fst once = Returned tt
  /\ fst twice = Returned tt
  /\ snd twice = snd once
  /\ forall owner, exists l,
       fst (getTasks R backend env owner (snd once)) = Returned l
       /\ forall t, In t l -> task_id t <> taskId.
Proof.
  intros Hlocal once twice. unfold twice, once.
  rewrite !deleteTask_local by assumption. simpl.
  repeat split.
  - unfold stored at 1. simpl. rewrite filter_twice. reflexivity.
  - intros owner. rewrite getTasks_local by assumption. simpl.
    eexists; split; [reflexivity|].
    intros t Ht. unfold stored at 1 in Ht. simpl in Ht.
    apply filter_In in Ht. destruct Ht as [Ht _].
    apply filter_In in Ht. destruct Ht as [_ Ht].
    apply negb_true_iff, String.eqb_neq in Ht. exact Ht.
Qed.

(** Where the backend was not initialised, for every state of the store
    and every id, [deleteTask] consults no owner: every stored task with
    that id is gone afterwards, also one owned by another user than the
    active one, and the tasks with other ids stay, unchanged and in the
    same order; the active user stays as it was. *)
Theorem deleteTask_checks_no_owner (taskId : string) (w : World R) :
  remoteInitialized env = false ->
  let before := stored TASKS (localStorage w) in
  let w' := snd (deleteTask R backend env taskId w) in
  let after := stored TASKS (localStorage w') in
  fst (deleteTask R backend env taskId w) = Returned tt
  /\ (forall t, In t before -> task_id t = taskId -> ~ In t after)
  /\ (forall t active, In t before -> task_id t = taskId ->
                       tf_current_user_profile (localStorage w) = Some active ->
                       task_userId t <> user_id active -> ~ In t after)
  /\ after = filter (fun t => negb (String.eqb (task_id t) taskId)) before
  /\ (forall t, In t before -> task_id t <> taskId -> In t after)
  /\ tf_current_user_profile (localStorage w') = tf_current_user_profile (localStorage w).
Proof.
  intros Hlocal before w' after. unfold after, w'.
  rewrite !deleteTask_local by assumption. simpl. unfold stored at 1 3 5 7. simpl.
  fold before.
  assert (Hgone : forall t, In t before -> task_id t = taskId ->
                            ~ In t (filter (fun t => negb (String.eqb (task_id t) taskId)) before)).
  { intros t _ Hid Hin. apply filter_In in Hin. destruct Hin as [_ Hin].
    apply negb_true_iff, String.eqb_neq in Hin. contradiction. }
  repeat split.
  - exact Hgone.
  - intros t active Hin Hid _ _. apply Hgone; assumption.
  - intros t Hin Hid. apply filter_In. split; [exact Hin|].
    apply negb_true_iff, String.eqb_neq. exact Hid.
Qed.

End LocalStoreFacts.

(* ===================================================================== *)
(** ** Facts about the data service: modes and failures *)
(* ===================================================================== *)

(** Symbolic execution of a service call: unfold the operation and the
    monad, keeping the SDK calls folded. *)
Ltac unfold_service :=
  unfold perform, perform_in, getCurrentUser, updateUserProfile, registerUser, loginUser,
    socialLogin, getCurrentUser_in, updateUserProfile_in, registerUser_in, loginUser_in,
    socialLogin_in, resetPassword, logout, getTasks, addTask, updateTask, deleteTask,
    clearCompletedTasks, getContacts, addContact, updateContact, deleteContact,
    getCustomTemplates, addTemplate, deleteTemplate, getDailyPlan, saveDailyPlan,
    returnsFromTry, try_catch, bind, ret, throw, getLocal, setLocal,
    getStoredUser, storeUser, storeUser_in, unlimited, removeUser, Date_now,
    nowISOString in *.

Section ServiceFacts.

Variable R : Type.
Variable backend : forall T : Type, Firebase T -> R -> outcome T * R.
Variable toISOString : Z -> string.
Variable env : Env.

Lemma remoteInitialized_initialize (isFirebaseConfigured : bool) (r : InitResult) :
  remoteInitialized (initialize isFirebaseConfigured r)
  = (isFirebaseConfigured && firestoreReached r)%bool.
Proof. destruct isFirebaseConfigured, r; reflexivity. Qed.


(** What one awaited SDK call leaves behind. *)
Lemma await_world {T : Type} (c : Firebase T) (w : World R) :
  localStorage (snd (await backend c w)) = localStorage w
  /\ dateNow (snd (await backend c w)) = dateNow w
  /\ remoteCalls (snd (await backend c w)) = remoteCalls w ++ [Called c]
  /\ fst (await backend c w) = fst (backend T c (remote w)).
Proof.
  unfold await. destruct (backend T c (remote w)) as [o r']. simpl. auto.
Qed.

(** The deletions started by [clearCompletedTasks] touch neither local
    storage nor the clock, and only add to the log. *)
Lemma promiseAll_deleteDocs (docs : list (string * Task)) (w : World R) :
  localStorage
    (snd (promiseAll (map (fun d => await backend (deleteDoc coll_tasks (fst d))) docs) w))
  = localStorage w
  /\ (List.length (remoteCalls w)
      <= List.length
           (remoteCalls
              (snd (promiseAll
                      (map (fun d => await backend (deleteDoc coll_tasks (fst d))) docs) w))))%nat.
Proof.
  revert w. induction docs as [|d docs IH]; intros w; cbn [promiseAll map].
  - simpl. split; [reflexivity|lia].
  - pose proof (await_world (deleteDoc coll_tasks (fst d)) w) as (Hl & _ & Hc & _).
    destruct (await backend (deleteDoc coll_tasks (fst d)) w) as [[a|e] w1];
      simpl in Hl, Hc; specialize (IH w1);
      destruct (promiseAll _ w1) as [[l|e'] w2]; simpl in *;
      rewrite Hc, length_app in IH; simpl in IH;
      destruct IH as [IH1 IH2]; (split; [congruence|lia]).
Qed.

(** Split on every answer of the backend, recording what the call left
    behind, and on every test. *)
Ltac split_service :=
  repeat (cbn beta iota zeta delta [fst snd localStorage remote remoteCalls dateNow] in *;
          match goal with
          | |- context [@await _ ?b _ ?c ?w] =>
              let H := fresh "Hcall" in
              pose proof (await_world c w) as H;
              destruct (@await _ b _ c w) as [[?|?] ?]
          | |- context [promiseAll ?ms ?w] =>
              let H := fresh "Hall" in
              lazymatch ms with
              | map _ ?docs => pose proof (promiseAll_deleteDocs docs w) as H
              end;
              destruct (promiseAll ms w) as [[?|?] ?]
          | |- context [match ?x with _ => _ end] =>
              lazymatch x with
              | context [match ?y with _ => _ end] => fail
              | _ => destruct x eqn:?
              end
          end).


(** Close a goal about the log of remote calls from the recorded facts. *)
Ltac finish_log :=
  unfold usedRemote, ranLocally;
  cbn beta iota zeta delta [fst snd localStorage remote remoteCalls dateNow] in *;
  repeat match goal with
         | H : _ /\ _ |- _ => destruct H
         end;
  repeat match goal with
         | H : remoteCalls _ = _ |- _ => rewrite H in *
         end;
  rewrite ?length_app in *; simpl in *; try lia; auto.





Lemma deletion_go_remote (req : Request) (w : World R) :
  isDeletion req = true ->
  remoteInitialized env = true ->
  usedRemote w (snd (perform backend toISOString env req w)).
Proof.
  unfold remoteInitialized. intros Hd Hi.
  destruct req; try discriminate; unfold_service; rewrite Hi;
    split_service; finish_log.
Qed.

Lemma deletion_stay_local (req : Request) (w : World R) :
  isDeletion req = true ->
  remoteInitialized env = false ->
  ranLocally w (snd (perform backend toISOString env req w)).
Proof.
  unfold remoteInitialized. intros Hd Hi.
  destruct req; try discriminate; unfold_service; rewrite Hi;
    split_service; finish_log.
Qed.

Lemma ranLocally_not_usedRemote (w w' : World R) : ranLocally w w' -> ~ usedRemote w w'.
Proof. unfold ranLocally, usedRemote. intros [-> _]. lia. Qed.


(** The three deletions receive a bare id: they try the remote backend
    whenever it was initialised, whoever owns the entity. *)
Lemma deletion_mode (req : Request) (w : World R) :
  isDeletion req = true ->
  let w' := snd (perform backend toISOString env req w) in
  (usedRemote w w' <-> remoteInitialized env = true)
  /\ (~ usedRemote w w' -> ranLocally w w').
Proof.
  intros Hd w'. unfold w'. destruct (remoteInitialized env) eqn:Hi.
  - pose proof (deletion_go_remote req w Hd Hi). tauto.
  - pose proof (deletion_stay_local req w Hd Hi) as H.
    pose proof (ranLocally_not_usedRemote _ _ H). split; [|tauto].
    split; [tauto|discriminate].
Qed.

(** *** Failures *)












(** *** The daily plans across the whole service *)

Lemma plans_untouched (req : Request) (w : World R) :
  (forall plan, req <> SaveDailyPlan plan) ->
  tf_daily_plans (localStorage (snd (perform backend toISOString env req w)))
  = tf_daily_plans (localStorage w).
Proof.
  intros Hreq.
  destruct req; try (exfalso; eapply Hreq; reflexivity);
    unfold_service; split_service;
    repeat match goal with
           | H : _ /\ _ |- _ => destruct H
           end;
    cbn [snd] in *;
    repeat match goal with
           | H : localStorage _ = _ |- _ => rewrite H in *
           end;
    reflexivity.
Qed.





End ServiceFacts.

(* ===================================================================== *)
(** ** Further facts about the data service: what is stored where *)
(* ===================================================================== *)

Lemma stored_setItem {T : Type} (key : Key T) (data : list T) (ls : LocalStorage) :
  stored key (setItem key data ls) = data.
Proof. destruct key; reflexivity. Qed.

(** *** Replacing an element found by its id *)

Section ReplaceById.

Context {A : Type}.
Variable key : A -> string.







End ReplaceById.

Section StorageFacts.

Variable R : Type.
Variable backend : forall T : Type, Firebase T -> R -> outcome T * R.
Variable toISOString : Z -> string.
Variable env : Env.

Lemma await_result {T : Type} (c : Firebase T) (w : World R) :
  fst (await backend c w) = fst (backend T c (remote w))
  /\ localStorage (snd (await backend c w)) = localStorage w
  /\ dateNow (snd (await backend c w)) = dateNow w
  /\ remoteCalls (snd (await backend c w)) = remoteCalls w ++ [Called c]
  /\ remote (snd (await backend c w)) = snd (backend T c (remote w)).
Proof.
  unfold await. destruct (backend T c (remote w)) as [o r']. simpl. auto.
Qed.

Lemma getLocal_stored {T : Type} (key : Key T) (w : World R) :
  getLocal R key w = (Returned (stored key (localStorage w)), w).
Proof. reflexivity. Qed.

(** Unfold an operation and the monad, keeping SDK calls and reads of
    local storage folded. *)
Ltac unfold_ops :=
  unfold perform, perform_in, getCurrentUser, updateUserProfile, registerUser, loginUser,
    socialLogin, getCurrentUser_in, updateUserProfile_in, registerUser_in, loginUser_in,
    socialLogin_in, resetPassword, logout, getTasks, addTask, updateTask, deleteTask,
    clearCompletedTasks, getContacts, addContact, updateContact, deleteContact,
    getCustomTemplates, addTemplate, deleteTemplate, getDailyPlan, saveDailyPlan,
    returnsFromTry, try_catch, bind, ret, throw, setLocal,
    getStoredUser, storeUser, storeUser_in, unlimited, removeUser, Date_now,
    nowISOString in *.

(** Split on the answer of every awaited call, recording what it left, and
    on every test. *)
Ltac run_service :=
  repeat (cbn beta iota zeta delta [fst snd localStorage remote remoteCalls dateNow] in *;
          match goal with
          | |- context [getLocal _ _ _] => rewrite !getLocal_stored
          | |- context [@await _ ?b _ ?c ?w] =>
              let H := fresh "Hcall" in
              pose proof (await_result c w) as H;
              destruct (@await _ b _ c w) as [[?|?] ?]
          | |- context [promiseAll ?ms ?w] =>
              lazymatch ms with
              | map _ ?docs =>
                  let H := fresh "Hall" in
                  pose proof (promiseAll_deleteDocs R backend docs w) as H;
                  destruct (promiseAll ms w) as [[?|?] ?]
              end
          | |- context [match ?x with _ => _ end] =>
              lazymatch x with
              | context [match ?y with _ => _ end] => fail
              | _ => destruct x eqn:?
              end
          end).

Ltac use_calls :=
  repeat match goal with
         | H : _ /\ _ |- _ => destruct H
         | H : exists _, _ |- _ => destruct H
         end;
  cbn [fst snd localStorage remote remoteCalls dateNow] in *;
  repeat match goal with
         | H : localStorage ?x = _ |- _ => is_var x; rewrite H in *
         end;
  try rewrite !stored_setItem.



(** X3: when the owner stays local, or the remote query rejects,
    [getTasks] returns the tasks of local storage whose userId is the one
    asked for, in stored order and only those, and leaves local storage as
    it was. *)
Theorem getTasks_falls_back (userId : string) (w : World R) :
  useFirestore env (Some userId) = false
  \/ rejects backend (getDocs coll_tasks [("userId", userId)]) (remote w) ->
  fst (getTasks R backend env userId w) = Returned (localTasks userId (localStorage w))
  /\ localStorage (snd (getTasks R backend env userId w)) = localStorage w
  /\ Forall (fun t => task_userId t = userId) (localTasks userId (localStorage w)).
Proof.
  intros Hmode. split; [|split].
  - unfold localTasks, rejects in *. unfold_ops.
    destruct (useFirestore env (Some userId));
      run_service; use_calls; try reflexivity;
      destruct Hmode as [Hm|[e' He]]; try discriminate; congruence.
  - unfold_ops. destruct (useFirestore env (Some userId));
      run_service; use_calls; reflexivity.
  - apply Forall_forall. intros t Ht. apply filter_In in Ht.
    destruct Ht as [_ Ht]. apply String.eqb_eq in Ht. exact Ht.
Qed.



(** *** The session *)

(** X6: [updateUserProfile] writes the profile to local storage first,
    outside every [try].  When the browser refuses that write, the
    operation throws what the browser threw, before any remote call, and
    the world is as it was.  When the browser stores it, the operation
    returns the profile it was given, whatever the mode and whatever the
    backend answers, the profile is the stored one, and [getCurrentUser]
    then returns it and changes nothing. *)
Theorem updateUserProfile_then_getCurrentUser
  (browser : Browser) (user : UserProfile) (w : World R) :
  let run := updateUserProfile_in R backend env browser user w in
  match browser user (localStorage w) with
  | Some e => run = (Thrown e, w)
  | None =>
      fst run = Returned user
      /\ tf_current_user_profile (localStorage (snd run)) = Some user
      /\ getCurrentUser_in R toISOString browser (snd run) = (Returned user, snd run)
  end.
Proof.
  cbv zeta.
  destruct (browser user (localStorage w)) as [e|] eqn:Eb.
  - unfold updateUserProfile_in, bind, storeUser_in. rewrite Eb. reflexivity.
  - assert (H : fst (updateUserProfile_in R backend env browser user w) = Returned user
                /\ tf_current_user_profile
                     (localStorage (snd (updateUserProfile_in R backend env browser user w)))
                   = Some user).
    { unfold_ops. cbn beta. rewrite !Eb.
      destruct (useFirestore env (Some (user_id user))); run_service; use_calls;
        split; reflexivity. }
    destruct H as [H1 H2]. split; [exact H1|]. split; [exact H2|].
    unfold getCurrentUser_in, bind, getStoredUser, ret. cbn [fst snd].
    rewrite H2. destruct (updateUserProfile_in R backend env browser user w).
    reflexivity.
Qed.

(** X7: [getCurrentUser] returns the stored profile when there is one, and
    the world is unchanged.  With no stored profile it makes a guest,
    whose id is the guest sentinel and who joined at the clock's reading,
    and writes it to local storage outside every [try]: when the browser
    refuses the write, the operation throws what the browser threw and
    nothing is stored; when the browser stores it, the operation returns
    the guest, a second call returns the same guest and changes nothing,
    and no call reaches the backend. *)
Theorem getCurrentUser_bootstraps_guest (browser : Browser) (w : World R) :
  let run := getCurrentUser_in R toISOString browser w in
  let guest :=
    mkUserProfile GUEST_ID "Guest User" "guest@taskflow.ai" None (toISOString (dateNow w)) in
  match tf_current_user_profile (localStorage w) with
  | Some saved => run = (Returned saved, w)
  | None =>
      match browser guest (localStorage w) with
      | Some e => run = (Thrown e, w)
      | None =>
          fst run = Returned guest
          /\ tf_current_user_profile (localStorage (snd run)) = Some guest
          /\ getCurrentUser_in R toISOString browser (snd run) = (Returned guest, snd run)
          /\ ranLocally w (snd run)
      end
  end.
Proof.
  cbv zeta. unfold ranLocally, GUEST_ID.
  unfold getCurrentUser_in, bind, getStoredUser, nowISOString, storeUser_in, ret.
  cbn [fst snd localStorage dateNow].
  destruct (tf_current_user_profile (localStorage w)) as [saved|] eqn:E; [reflexivity|].
  destruct (browser _ (localStorage w)) as [e|] eqn:Eb; [reflexivity|].
  cbn. repeat apply conj; reflexivity.
Qed.


(** *** Accounts in the local simulation *)






(** X11: with the auth provider initialised, [registerUser],
    [loginUser], [resetPassword] and [socialLogin] leave local storage as
    it was, whether the provider resolves or rejects: the profile they
    return is not stored as the current user. *)
Theorem remote_auth_leaves_local_storage (req : Request) (w : World R) :
  authInitialized env = true ->
  match req with
  | RegisterUser _ | LoginUser _ _ | ResetPassword _ | SocialLogin _ => True
  | _ => False
  end ->
  localStorage (snd (perform backend toISOString env req w)) = localStorage w.
Proof.
  unfold authInitialized. intros Ha Hreq.
  destruct req; try contradiction; unfold_ops; rewrite Ha;
    run_service; use_calls; reflexivity.
Qed.

(** *** Daily plans, templates, and what each operation leaves alone *)



Ltac frame_case := unfold_ops; run_service; use_calls; reflexivity.

(** X13: every operation leaves alone the local collections
    that are not its own, in every mode and whatever the backend answers:
    only the task operations write the tasks, only the contact operations
    the contacts, only the template operations the templates, only
    [registerUser] the registered users, only [saveDailyPlan] the plans,
    and only the session operations the current profile. *)
Theorem operations_write_their_own_collection (req : Request) (w : World R) :
  let ls := localStorage w in
  let ls' := localStorage (snd (perform backend toISOString env req w)) in
  (mayWriteTasks req = false -> tf_tasks ls' = tf_tasks ls)
  /\ (mayWriteContacts req = false -> tf_contacts ls' = tf_contacts ls)
  /\ (mayWriteTemplates req = false -> tf_templates ls' = tf_templates ls)
  /\ (mayWriteUsers req = false -> tf_users ls' = tf_users ls)
  /\ (mayWriteSession req = false ->
      tf_current_user_profile ls' = tf_current_user_profile ls)
  /\ ((forall plan, req <> SaveDailyPlan plan) -> tf_daily_plans ls' = tf_daily_plans ls).
Proof.
  cbv zeta. split; [|split; [|split; [|split; [|split]]]].
  - destruct req; intros Hreq; try discriminate; frame_case.
  - destruct req; intros Hreq; try discriminate; frame_case.
  - destruct req; intros Hreq; try discriminate; frame_case.
  - destruct req; intros Hreq; try discriminate; frame_case.
  - destruct req; intros Hreq; try discriminate; frame_case.
  - apply plans_untouched.
Qed.





End StorageFacts.

(* ===================================================================== *)
(** ** Facts about the task list component *)
(* ===================================================================== *)

Section AppFacts.

Variable R : Type.
Variable backend : forall T : Type, Firebase T -> R -> outcome T * R.
Variable env : Env.

Lemma useFirestore_guest : useFirestore env (Some GUEST_ID) = false.
Proof.
  unfold useFirestore, GUEST_ID. destruct (isReal env), (firestore env); reflexivity.
Qed.

Lemma getTasks_guest (w : World R) :
  getTasks R backend env GUEST_ID w = (Returned (localTasks GUEST_ID (localStorage w)), w).
Proof. unfold getTasks. rewrite useFirestore_guest. reflexivity. Qed.

Lemma getContacts_guest (w : World R) :
  getContacts R backend env GUEST_ID w
  = (Returned (localContacts GUEST_ID (localStorage w)), w).
Proof. unfold getContacts. rewrite useFirestore_guest. reflexivity. Qed.






Lemma filter_owner_cleared (l : list Task) :
  filter (fun t => String.eqb (task_userId t) GUEST_ID)
         (filter (fun t => negb (String.eqb (task_userId t) GUEST_ID
                                 && TaskStatus_eqb (task_status t) COMPLETED)) l)
  = filter (fun t => negb (isCompleted t))
           (filter (fun t => String.eqb (task_userId t) GUEST_ID) l).
Proof.
  unfold isCompleted. induction l as [|t l IH]; simpl; [reflexivity|].
  destruct (String.eqb (task_userId t) GUEST_ID) eqn:Eo; simpl;
    destruct (TaskStatus_eqb (task_status t) COMPLETED); simpl; rewrite ?Eo, IH;
    reflexivity.
Qed.

Ltac unfold_app :=
  unfold handle, loadUserData, App_addTask, App_deleteTask, App_clearCompletedTasks,
    App_updateTask, App_addEmail, App_deleteEmail, App_toggleEmailActive,
    promiseBoth, callDb, readState, setTasks, setEmailContacts, setNewEmailAddress,
    setShowConfetti, setIsDataLoading, addToast, setState, try_catch, bind, ret in *.


(** *** Deleting and updating a task: the optimistic handlers *)

Lemma deleteTask_answers (taskId : string) (w : World R) :
  let w' := snd (deleteTask R backend env taskId w) in
  fst (deleteTask R backend env taskId w) = Returned tt
  /\ (remoteInitialized env = true ->
      resolves backend (deleteDoc coll_tasks taskId) (remote w) ->
      localStorage w' = localStorage w)
  /\ (remoteInitialized env = false
      \/ rejects backend (deleteDoc coll_tasks taskId) (remote w) ->
      localStorage w'
      = setItem TASKS (filter (fun t => negb (String.eqb (task_id t) taskId))
                              (stored TASKS (localStorage w)))
                (localStorage w)).
Proof.
  unfold remoteInitialized, resolves, rejects. cbv zeta.
  unfold deleteTask, returnsFromTry, try_catch, bind, ret, setLocal.
  destruct (isReal env && firestore env)%bool.
  - pose proof (await_result R backend (deleteDoc coll_tasks taskId) w) as (Hf & Hl & _).
    destruct (await backend (deleteDoc coll_tasks taskId) w) as [[a|e] w1];
      cbn [fst snd] in *; rewrite ?getLocal_stored; cbn [fst snd localStorage];
      rewrite ?Hl; repeat apply conj; try reflexivity.
    + intros [H|[e H]]; [discriminate|congruence].
    + intros _ [a H]. congruence.
  - rewrite getLocal_stored. cbn [fst snd localStorage].
    repeat apply conj; try reflexivity. discriminate.
Qed.



(** X19: when the backend is initialised and the remote delete
    resolves, App's [deleteTask] takes the task off the displayed list and
    raises the toast "Task deleted", but local storage, which is where the
    guest's tasks are read from, is unchanged: the next [loadUserData]
    displays the task list as it was before the delete. *)
Theorem App_deleteTask_comes_back (taskId : string) (aw : AppWorld R) :
  viewInSync aw ->
  remoteInitialized env = true ->
  resolves backend (deleteDoc coll_tasks taskId) (remote (db aw)) ->
  let aw1 := snd (handle R backend env (DeleteTaskAction taskId) aw) in
  let aw2 := snd (handle R backend env LoadUserData aw1) in
  app_tasks (ui aw1)
  = filter (fun t => negb (String.eqb (task_id t) taskId)) (app_tasks (ui aw))
  /\ app_toasts (ui aw1) = app_toasts (ui aw) ++ [("Task deleted", toast_success)]
  /\ localStorage (db aw1) = localStorage (db aw)
  /\ app_tasks (ui aw2) = app_tasks (ui aw).
Proof.
  unfold viewInSync. intros [Ht Hc] Hi Hres. cbv zeta.
  destruct (deleteTask_answers taskId (db aw)) as (Hr & Hl & _).
  specialize (Hl Hi Hres).
  unfold_app. cbn [fst snd db ui].
  destruct (deleteTask R backend env taskId (db aw)) as [[u|e] w1];
    cbn [fst snd] in Hr, Hl; [|discriminate].
  cbn [fst snd db ui app_tasks app_emailContacts app_toasts].
  rewrite getTasks_guest. cbn [fst snd db ui].
  rewrite getContacts_guest. cbn. rewrite Hl.
  repeat apply conj; try reflexivity. symmetry. exact Ht.
Qed.

Lemma updateTask_guest (updatedTask : Task) (w : World R) :
  task_userId updatedTask = GUEST_ID ->
  updateTask R backend env updatedTask w
  = (Returned tt,
     match findIndex (fun t => String.eqb (task_id t) (task_id updatedTask))
                     (stored TASKS (localStorage w)) with
     | Some index =>
         mkWorld (setItem TASKS (setAt (stored TASKS (localStorage w)) index updatedTask)
                          (localStorage w))
                 (remote w) (remoteCalls w) (dateNow w)
     | None => w
     end).
Proof.
  intros Hg. unfold updateTask. rewrite Hg, useFirestore_guest.
  unfold bind, ret, setLocal. rewrite getLocal_stored. cbn [fst snd].
  destruct (findIndex _ _); reflexivity.
Qed.



(** *** The card's status button, through [updateTask] *)

(** X21: pressing the status button of a displayed guest task hands
    [updateTask] the task with its status changed, which is then on
    display.  A task that was not completed becomes COMPLETED, the
    confetti is switched on and the toast "Great job!" is raised; a
    completed task goes back to TODO (also one that was IN_PROGRESS before
    it was completed), with no confetti change and no toast. *)
Theorem completing_a_task_celebrates (task : Task) (aw : AppWorld R) :
  find (fun t => String.eqb (task_id t) (task_id task)) (app_tasks (ui aw)) = Some task ->
  task_userId task = GUEST_ID ->
  let aw' := snd (handle R backend env (UpdateTaskAction (handleStatusChange task)) aw) in
  In (handleStatusChange task) (app_tasks (ui aw'))
  /\ (task_status task <> COMPLETED ->
      task_status (handleStatusChange task) = COMPLETED
      /\ app_showConfetti (ui aw') = true
      /\ app_toasts (ui aw') = app_toasts (ui aw) ++ [("Great job!", toast_success)])
  /\ (task_status task = COMPLETED ->
      task_status (handleStatusChange task) = TODO
      /\ app_showConfetti (ui aw') = app_showConfetti (ui aw)
      /\ app_toasts (ui aw') = app_toasts (ui aw)).
Proof.
  intros Hfind Hg. cbv zeta.
  assert (Hg' : task_userId (handleStatusChange task) = GUEST_ID) by exact Hg.
  assert (Hin : In (handleStatusChange task)
                   (replaceById task_id (handleStatusChange task) (app_tasks (ui aw)))).
  { apply find_some in Hfind. destruct Hfind as [Hin _].
    unfold replaceById. apply in_map_iff. exists task. split; [|exact Hin].
    change (task_id (handleStatusChange task)) with (task_id task).
    rewrite String.eqb_refl. reflexivity. }
  unfold_app. cbn [fst snd db ui].
  change (task_id (handleStatusChange task)) with (task_id task).
  rewrite Hfind.
  change (task_status (handleStatusChange task))
    with (if TaskStatus_eqb (task_status task) COMPLETED then TODO else COMPLETED).
  destruct (task_status task) eqn:Es; cbn [TaskStatus_eqb negb andb fst snd db ui];
    rewrite (updateTask_guest (handleStatusChange task) (db aw) Hg');
    cbn; (split; [exact Hin|]); split; intros H; try congruence; auto.
Qed.

End AppFacts.

(* ===================================================================== *)
(** ** Facts about the search filter, the analytics view and the task card *)
(* ===================================================================== *)

Lemma prefix_occurs (q s : string) :
  String.prefix q s = true <-> exists post : string, s = (q ++ post)%string.
Proof.
  revert s. induction q as [|a q IH]; intros s.
  - split; [intros _; exists s; reflexivity|intros _; destruct s; reflexivity].
  - destruct s as [|b s]; simpl.
    + split; [discriminate|]. intros [post H]. discriminate.
    + destruct (ascii_dec a b) as [->|Hne].
      * rewrite IH. split; intros [post H]; exists post; congruence.
      * split; [discriminate|]. intros [post H]. congruence.
Qed.

Lemma includes_occursIn (s q : string) : JS.includes s q = true <-> occursIn q s.
Proof.
  unfold occursIn. induction s as [|c s IH]; cbn [JS.includes];
    rewrite orb_true_iff, prefix_occurs.
  - split.
    + intros [[post H]|H]; [|discriminate]. exists EmptyString, post. exact H.
    + intros (pre & post & H). left. destruct pre; [|discriminate].
      exists post. exact H.
  - rewrite IH. split.
    + intros [[post H]|(pre & post & H)].
      * exists EmptyString, post. exact H.
      * exists (String c pre), post. simpl. rewrite H. reflexivity.
    + intros (pre & post & H). destruct pre as [|c' pre].
      * left. exists post. exact H.
      * right. exists pre, post. simpl in H. congruence.
Qed.

Lemma lowerChar_idempotent (c : ascii) : JS.lowerChar (JS.lowerChar c) = JS.lowerChar c.
Proof. destruct c as [[] [] [] [] [] [] [] []]; reflexivity. Qed.

Lemma toLowerCase_idempotent (s : string) :
  JS.toLowerCase (JS.toLowerCase s) = JS.toLowerCase s.
Proof.
  induction s as [|c s IH]; simpl; [reflexivity|].
  rewrite lowerChar_idempotent, IH. reflexivity.
Qed.

Lemma includes_empty (s : string) : JS.includes s "" = true.
Proof. destruct s; reflexivity. Qed.

(** X22: for a query, a title and a description of ASCII characters, a
    task passes the search filter exactly when the query, in lower case,
    occurs as a contiguous piece of its title or of its description in
    lower case; the case of the query's letters makes no difference; and
    the empty query lets every task pass. *)
Theorem search_matches_substrings_whatever_the_case (searchQuery : string) (t : Task) :
  isAscii searchQuery = true ->
  isAscii (task_title t) = true ->
  isAscii (task_description t) = true ->
  (matchesSearch searchQuery t = true
   <-> occursIn (JS.toLowerCase searchQuery) (JS.toLowerCase (task_title t))
       \/ occursIn (JS.toLowerCase searchQuery) (JS.toLowerCase (task_description t)))
  /\ matchesSearch (JS.toLowerCase searchQuery) t = matchesSearch searchQuery t
  /\ matchesSearch "" t = true.
Proof.
  intros _ _ _. unfold matchesSearch. repeat apply conj.
  - rewrite orb_true_iff, !includes_occursIn. tauto.
  - intros H. apply orb_true_iff. rewrite !includes_occursIn. exact H.
  - rewrite toLowerCase_idempotent. reflexivity.
  - simpl. rewrite includes_empty. reflexivity.
Qed.

Lemma filter_all {A : Type} (p : A -> bool) (l : list A) :
  (forall x, In x l -> p x = true) -> filter p l = l.
Proof.
  intros H. induction l as [|x l IH]; simpl; [reflexivity|].
  rewrite (H x (or_introl eq_refl)), IH; [reflexivity|].
  intros y Hy. apply H. right. exact Hy.
Qed.

Lemma Permutation_filter_length {A : Type} (p : A -> bool) (l l' : list A) :
  Permutation l l' -> List.length (filter p l) = List.length (filter p l').
Proof.
  induction 1 as [|x l l' _ IH|x y l|l l' l'' _ IH1 _ IH2]; simpl.
  - reflexivity.
  - destruct (p x); simpl; rewrite IH; reflexivity.
  - destruct (p x), (p y); reflexivity.
  - rewrite IH1. exact IH2.
Qed.

Lemma status_counts (tasks : list Task) :
  (List.length (filter (fun t => TaskStatus_eqb (task_status t) COMPLETED) tasks)
   + List.length (filter (fun t => TaskStatus_eqb (task_status t) IN_PROGRESS) tasks)
   + List.length (filter (fun t => TaskStatus_eqb (task_status t) TODO) tasks)
   = List.length tasks)%nat.
Proof.
  induction tasks as [|t l IH]; simpl; [reflexivity|].
  destruct (task_status t); simpl; lia.
Qed.

Section AnalyticsFacts.

Variable parseDate : string -> JS.Date.
Variable localDay : Z -> Z.

Lemma overdue_count_le (now : Z) (tasks : list Task) :
  (stat_overdue (AnalyticsView parseDate now tasks)
   <= stat_inProgress (AnalyticsView parseDate now tasks)
      + stat_todo (AnalyticsView parseDate now tasks))%nat.
Proof.
  unfold AnalyticsView. cbn [stat_overdue stat_inProgress stat_todo].
  induction tasks as [|t l IH]; simpl; [lia|].
  destruct (task_status t); simpl;
    try destruct (JS.Date_lt _ _); simpl; lia.
Qed.

(** X23: in the analytics view the completed, in-progress and to-do
    counts add up to the total; the overdue count is at most the number of
    tasks that are not completed; the completion rate of an empty list is
    0; and up to 300 tasks the rate is an integer nearest to 100 times
    completed over total, which is 100 when every task is completed and 0
    when none is. *)
Theorem AnalyticsView_figures (now : Z) (tasks : list Task) :
  let s := AnalyticsView parseDate now tasks in
  let n := Z.of_nat (stat_total s) in
  let c := Z.of_nat (stat_completed s) in
  (stat_completed s + stat_inProgress s + stat_todo s = stat_total s)%nat
  /\ (stat_overdue s <= stat_inProgress s + stat_todo s)%nat
  /\ (tasks = [] -> stat_completionRate s = Some 0)
  /\ (0 < n <= 300 ->
      exists p, stat_completionRate s = Some p
                /\ nearestPercent c n p
                /\ (c = n -> p = 100)
                /\ (c = 0 -> p = 0)).
Proof.
  intros s n c.
  assert (Hsum := status_counts tasks).
  repeat apply conj.
  - exact Hsum.
  - apply overdue_count_le.
  - intros ->. reflexivity.
  - intros Hn.
    assert (Hc : 0 <= c <= n).
    { unfold c, n, s, AnalyticsView. cbn [stat_completed stat_total].
      split; [lia|]. apply inj_le, filter_length_le. }
    assert (E : stat_completionRate s = percentage c n).
    { unfold c, n, s, AnalyticsView.
      cbn [stat_completionRate stat_completed stat_total].
      destruct (Nat.eqb_spec (List.length tasks) 0) as [E0|_]; [|reflexivity].
      unfold n, s, AnalyticsView in Hn. cbn [stat_total] in Hn. lia. }
    pose proof (nearestUpTo_sound 300 nearestUpTo_300 n c ltac:(lia) Hc) as Hp.
    unfold percentageIsNearest in Hp. rewrite E.
    destruct (percentage c n) as [p|]; [|discriminate].
    exists p.
    apply andb_prop in Hp. destruct Hp as [Hp H100].
    apply andb_prop in Hp. destruct Hp as [Hp H0].
    unfold nearestPercent. repeat apply conj; [reflexivity|lia|nia|nia].
Qed.

Lemma overdue_per_task (now : Z) (t : Task) :
  (negb (TaskStatus_eqb (task_status t) COMPLETED)
   && JS.Date_lt (newDate parseDate (task_dueDate t)) (Some now))%bool
  = (Bucket_eqb (bucketBySpec parseDate localDay now t) Overdue
     || (Bucket_eqb (bucketBySpec parseDate localDay now t) Today
         && JS.Date_lt (newDate parseDate (task_dueDate t)) (Some now)))%bool.
Proof.
  unfold bucketBySpec, newDate, JS.Date_lt.
  destruct (task_status t); simpl; try reflexivity;
    destruct (parseDate (task_dueDate t)) as [due|]; simpl; try reflexivity;
    destruct (localDay due =? localDay now), (due <? now); reflexivity.
Qed.

Lemma overdue_split (now : Z) (tasks : list Task) :
  List.length
    (filter (fun t =>
               (negb (TaskStatus_eqb (task_status t) COMPLETED)
                && JS.Date_lt (newDate parseDate (task_dueDate t)) (Some now))%bool)
            tasks)
  = (List.length
       (filter (fun t => Bucket_eqb (bucketBySpec parseDate localDay now t) Overdue) tasks)
     + List.length
         (filter (fun t => JS.Date_lt (newDate parseDate (task_dueDate t)) (Some now))
                 (filter (fun t => Bucket_eqb (bucketBySpec parseDate localDay now t) Today)
                         tasks)))%nat.
Proof.
  induction tasks as [|t l IH]; simpl; [reflexivity|].
  rewrite overdue_per_task.
  destruct (bucketBySpec parseDate localDay now t); simpl;
    try destruct (JS.Date_lt _ _); simpl; lia.
Qed.

(** X24: the overdue figure of the analytics view and the
    overdue group of the task list are not the same count: read at the
    same instant and with no search query, the figure is the size of the
    overdue group plus the number of tasks of the today group whose due
    time has passed. *)
Theorem overdue_figure_counts_todays_late_tasks (now : Z) (tasks : list Task) :
  let g := groupTasks parseDate localDay now "" tasks in
  let lateToday :=
    filter (fun t => JS.Date_lt (newDate parseDate (task_dueDate t)) (Some now)) (today g) in
  stat_overdue (AnalyticsView parseDate now tasks)
  = (List.length (overdue g) + List.length lateToday)%nat.
Proof.
  cbv zeta.
  change (overdue (groupTasks parseDate localDay now "" tasks))
    with (bucket (groupTasks parseDate localDay now "" tasks) Overdue).
  change (today (groupTasks parseDate localDay now "" tasks))
    with (bucket (groupTasks parseDate localDay now "" tasks) Today).
  rewrite !groupTasks_bucket.
  rewrite (Permutation_length (sort_Permutation _ _)).
  rewrite (Permutation_filter_length _ _ _ (sort_Permutation _ _)).
  unfold bucketMembers.
  rewrite (filter_all (matchesSearch "") tasks)
    by (intros t _; unfold matchesSearch; simpl; rewrite includes_empty; reflexivity).
  unfold AnalyticsView. cbn [stat_overdue]. apply overdue_split.
Qed.

End AnalyticsFacts.

(** *** The task card *)

Lemma withSubtasks_same (task : Task) (subtasks : list Subtask) :
  task_subtasks task = Some subtasks -> withSubtasks task subtasks = task.
Proof. destruct task; simpl; intros ->; reflexivity. Qed.

Lemma toggle_twice (subtaskId : string) (subtasks : list Subtask) :
  map (fun st =>
         if String.eqb (subtask_id st) subtaskId
         then mkSubtask (subtask_id st) (subtask_title st) (negb (subtask_isCompleted st))
         else st)
      (map (fun st =>
              if String.eqb (subtask_id st) subtaskId
              then mkSubtask (subtask_id st) (subtask_title st)
                             (negb (subtask_isCompleted st))
              else st) subtasks)
  = subtasks.
Proof.
  induction subtasks as [|st l IH]; simpl; [reflexivity|].
  rewrite IH. destruct (String.eqb (subtask_id st) subtaskId) eqn:E; simpl; rewrite E.
  - rewrite negb_involutive. destruct st; reflexivity.
  - reflexivity.
Qed.

(** X25: [toggleSubtask] does nothing on a task without a subtask
    list; otherwise it keeps the ids and titles of the subtasks, in order,
    leaves the subtasks with another id as they are, and toggling the same
    id a second time gives back the task exactly. *)
Theorem toggleSubtask_twice_restores (subtaskId : string) (task : Task) :
  match toggleSubtask subtaskId task with
  | Some once =>
      toggleSubtask subtaskId once = Some task
      /\ map subtask_id (subtasksOrEmpty once) = map subtask_id (subtasksOrEmpty task)
      /\ map subtask_title (subtasksOrEmpty once) = map subtask_title (subtasksOrEmpty task)
      /\ forall st, In st (subtasksOrEmpty task) -> subtask_id st <> subtaskId ->
                    In st (subtasksOrEmpty once)
  | None => task_subtasks task = None
  end.
Proof.
  unfold toggleSubtask, subtasksOrEmpty.
  destruct (task_subtasks task) as [subtasks|] eqn:E; [|reflexivity].
  cbn [task_subtasks withSubtasks]. repeat apply conj.
  - rewrite toggle_twice. f_equal.
    destruct task; simpl in *; subst; reflexivity.
  - rewrite map_map. apply map_ext. intros st.
    destruct (String.eqb _ _); reflexivity.
  - rewrite map_map. apply map_ext. intros st.
    destruct (String.eqb _ _); reflexivity.
  - intros st Hin Hne. apply in_map_iff. exists st.
    apply String.eqb_neq in Hne. rewrite Hne. auto.
Qed.

(** X26: [handleAddSubtask] with a title of ASCII characters that is not
    blank adds an open subtask with that title at the end of the list,
    and [deleteSubtask] of its id, when no earlier subtask has it, gives
    back the earlier subtasks. *)
Theorem handleAddSubtask_then_deleteSubtask (uuid newSubtaskTitle : string) (task : Task) :
  isAscii newSubtaskTitle = true ->
  trim newSubtaskTitle <> "" ->
  ~ In uuid (map subtask_id (subtasksOrEmpty task)) ->
  exists added,
    handleAddSubtask uuid newSubtaskTitle task = Some added
    /\ subtasksOrEmpty added
       = subtasksOrEmpty task ++ [mkSubtask uuid newSubtaskTitle false]
    /\ deleteSubtask uuid added = Some (withSubtasks task (subtasksOrEmpty task)).
Proof.
  intros _ Htitle Hfresh. unfold handleAddSubtask.
  apply String.eqb_neq in Htitle. rewrite Htitle.
  eexists. split; [reflexivity|]. split; [reflexivity|].
  unfold deleteSubtask. cbn [task_subtasks withSubtasks].
  rewrite filter_app. simpl. rewrite String.eqb_refl. simpl. rewrite app_nil_r.
  rewrite filter_all; [reflexivity|].
  intros st Hin. apply negb_true_iff, String.eqb_neq. intros Heq.
  apply Hfresh. apply in_map_iff. exists st. auto.
Qed.

(* ===================================================================== *)
(** ** Closed examples, on the reference runtime *)
(* ===================================================================== *)

Module Examples.

Import Reference.

(** Monday 2 November 2026, 10:00 UTC. *)
Definition now : Z := 1793613600000.

Definition configured : Env := initialize true Initialized.

Definition unconfigured : Env := initialize false Initialized.

(** *** Grouping *)

Definition dueYesterday : Task :=
  task "b" "u1" "2026-11-01T10:00:00.000Z" "2026-10-30T08:00:00.000Z" TODO.
Definition dueEarlierToday : Task :=
  task "a" "u1" "2026-11-02T08:00:00.000Z" "2026-10-30T09:00:00.000Z" TODO.
Definition dueTomorrow : Task :=
  task "c" "u1" "2026-11-03T10:00:00.000Z" "2026-10-31T09:00:00.000Z" IN_PROGRESS.
Definition doneLastWeek : Task :=
  task "d" "u1" "2026-10-26T10:00:00.000Z" "2026-10-25T09:00:00.000Z" COMPLETED.
Definition dueSomeday : Task :=
  task "x" "u1" "someday" "2026-10-31T10:00:00.000Z" TODO.

(** The bucketing scenario of the specification: due a day before [now]
    is overdue, due today is today though its hour has passed, due tomorrow
    is upcoming, completed is completed. *)
Example groupTasks_scenario :
  groupTasks parseISO utcDay now ""
             [dueTomorrow; doneLastWeek; dueEarlierToday; dueYesterday]
  = mkTaskGroups [dueYesterday] [dueEarlierToday] [dueTomorrow] [doneLastWeek].
Proof. vm_compute. reflexivity. Qed.

Lemma unparseable_due_is_upcoming_witness :
  exists g, groupTasks parseISO utcDay now "" [dueYesterday; dueSomeday] = g
            /\ In dueSomeday (upcoming g)
            /\ ~ In dueSomeday (overdue g) /\ ~ In dueSomeday (today g)
            /\ ~ In dueSomeday (completed g).
Proof.
  apply (unparseable_due_is_upcoming parseISO utcDay now "" [dueYesterday; dueSomeday]
                                     dueSomeday).
  - simpl. right. left. reflexivity.
  - reflexivity.
  - discriminate.
  - reflexivity.
Defined.

(** *** Order inside the buckets *)

Definition dueInThreeDays : Task :=
  task "late" "u1" "2026-11-05T10:00:00.000Z" "2026-10-30T08:00:00.000Z" TODO.

(** A task without a due timestamp between two that have one: every
    comparison with it gives NaN, and the later task stays in front. *)
Lemma upcoming_not_sorted :
  upcoming (groupTasks parseISO utcDay now "" [dueInThreeDays; dueSomeday; dueTomorrow])
  = [dueInThreeDays; dueSomeday; dueTomorrow]
  /\ parseISO (task_dueDate dueInThreeDays) = Some 1793872800000
  /\ parseISO (task_dueDate dueTomorrow) = Some 1793700000000
  /\ ~ StronglySorted (inDueOrder parseISO)
         (upcoming (groupTasks parseISO utcDay now ""
                               [dueInThreeDays; dueSomeday; dueTomorrow])).
Proof.
  split; [vm_compute; reflexivity|].
  split; [vm_compute; reflexivity|].
  split; [vm_compute; reflexivity|].
  intros H.
  assert (E : upcoming (groupTasks parseISO utcDay now ""
                                   [dueInThreeDays; dueSomeday; dueTomorrow])
              = [dueInThreeDays; dueSomeday; dueTomorrow])
    by (vm_compute; reflexivity).
  rewrite E in H. apply StronglySorted_inv in H. destruct H as [_ H].
  rewrite Forall_forall in H.
  specialize (H dueTomorrow (or_intror (or_introl eq_refl))).
  vm_compute in H. apply H. reflexivity.
Qed.

Lemma buckets_sorted_stable_witness :
  let g := groupTasks parseISO utcDay now "" [dueInThreeDays; doneLastWeek; dueTomorrow] in
  StronglySorted (inDueOrder parseISO) (upcoming g)
  /\ StronglySorted (inRecencyOrder parseISO) (completed g).
Proof.
  pose proof (buckets_sorted_stable parseISO utcDay now ""
                [dueInThreeDays; doneLastWeek; dueTomorrow]) as (_ & _ & Hu & Hc).
  split.
  - apply Hu.
    assert (E : bucketMembers parseISO utcDay now ""
                  [dueInThreeDays; doneLastWeek; dueTomorrow] Upcoming
                = [dueInThreeDays; dueTomorrow]) by (vm_compute; reflexivity).
    rewrite E. repeat constructor; unfold dueParses; vm_compute; discriminate.
  - apply Hc.
    assert (E : bucketMembers parseISO utcDay now ""
                  [dueInThreeDays; doneLastWeek; dueTomorrow] Completed
                = [doneLastWeek]) by (vm_compute; reflexivity).
    rewrite E. repeat constructor; unfold creationParses; vm_compute; discriminate.
Defined.

(** *** Progress *)

Definition doneToday : Task :=
  task "e" "u1" "2026-11-02T18:00:00.000Z" "2026-10-30T09:00:00.000Z" COMPLETED.
Definition dueLaterToday : Task :=
  task "f" "u1" "2026-11-02T20:00:00.000Z" "2026-10-30T09:00:00.000Z" IN_PROGRESS.

(** Three tasks due today, one of them completed: the progress is 33, but
    the today bucket holds the two open tasks only, none of them completed,
    so the share of completed tasks in the today bucket is 0.  And forty
    tasks due today, 23 of them completed: 100 * 23 / 40 is 57.5 exactly,
    which rounds to 58, but (23 / 40) * 100 is 57.49999999999999 in double
    precision and the progress is 57. *)
Lemma progress_not_over_today_bucket :
  (getTodayProgress parseISO utcDay now [dueEarlierToday; doneToday; dueLaterToday] = Some 33
   /\ today (groupTasks parseISO utcDay now "" [dueEarlierToday; doneToday; dueLaterToday])
      = [dueEarlierToday; dueLaterToday]
   /\ progressOverTodayBucket parseISO utcDay now [dueEarlierToday; doneToday; dueLaterToday]
      = Some 0)
  /\ (getTodayProgress parseISO utcDay now
                       (repeat doneToday 23 ++ repeat dueLaterToday 17) = Some 57
      /\ 2 * (100 * 23) = 40 * (2 * 57 + 1)
      /\ roundedShare 23 40 = 58).
Proof.
  repeat split; vm_compute; reflexivity.
Qed.

Lemma getTodayProgress_spec_witness :
  getTodayProgress parseISO utcDay now [dueEarlierToday; doneToday; dueLaterToday] = Some 33
  /\ exists p, getTodayProgress parseISO utcDay now [dueEarlierToday; doneToday; dueLaterToday]
               = Some p
               /\ nearestPercent 1 3 p /\ 0 <= p <= 100.
Proof.
  pose proof (getTodayProgress_spec parseISO utcDay now
                [dueEarlierToday; doneToday; dueLaterToday]) as (_ & _ & H33 & Hnear).
  split.
  - apply H33; reflexivity.
  - apply Hnear. vm_compute. split; [reflexivity|discriminate].
Defined.

(** *** The data service *)

Definition guestTask : Task :=
  task "t1" GUEST_ID "2026-11-03T10:00:00.000Z" "2026-11-01T09:00:00.000Z" TODO.
Definition annTask : Task :=
  task "t2" "ann" "2026-11-03T10:00:00.000Z" "2026-11-01T09:00:00.000Z" TODO.

Definition guestProfile : UserProfile :=
  mkUserProfile GUEST_ID "Guest User" "guest@taskflow.ai" None "2026-11-01T09:00:00.000Z".

Definition someTasks : LocalStorage :=
  mkLocalStorage (Some [guestTask; annTask]) None None None None (Some guestProfile).




(** A browser whose storage is full: it refuses every profile. *)
Definition full : Browser := fun _ _ => Some (DOMException "QuotaExceededError").


(** What the amended claim leaves out: the write of the current profile
    is not guarded.  In a browser whose storage is full, [getCurrentUser]
    and [updateUserProfile] throw in local mode, and so does the
    simulated [registerUser], after it has stored the new account. *)
Example refused_profile_write_escapes :
  fst (perform_in unreachable isoOf unconfigured full GetCurrentUser (world emptyStorage))
  = Thrown (DOMException "QuotaExceededError")
  /\ fst (perform_in unreachable isoOf unconfigured full (UpdateUserProfile guestProfile)
                     (world emptyStorage))
     = Thrown (DOMException "QuotaExceededError")
  /\ fst (perform_in unreachable isoOf unconfigured full
                     (RegisterUser (mkUserProfile "" "Ann" "ann@example.com" (Some "secret") ""))
                     (world emptyStorage))
     = Thrown (DOMException "QuotaExceededError")
  /\ stored USERS
       (localStorage
          (snd (perform_in unreachable isoOf unconfigured full
                           (RegisterUser (mkUserProfile "" "Ann" "ann@example.com"
                                                        (Some "secret") ""))
                           (world emptyStorage))))
     = [mkUserProfile "user_0" "Ann" "ann@example.com" (Some "secret") ""].
Proof. repeat split. Qed.

(** C9, at the failing input: the backend is initialised and accepts the
    delete, and the task "t1" is the guest's, which the mode rule keeps
    in local storage.  [deleteTask] returns both times, but the task stays
    stored, and [getTasks] for the guest still returns it after the first
    call and after the second. *)
Lemma deleteTask_leaves_guest_task_listed :
  remoteInitialized configured = true
  /\ useFirestore configured (Some GUEST_ID) = false
  /\ fst (getTasks unit accepting configured GUEST_ID (world someTasks))
     = Returned [guestTask]
  /\ fst (deleteTask unit accepting configured "t1" (world someTasks)) = Returned tt
  /\ fst (getTasks unit accepting configured GUEST_ID
            (snd (deleteTask unit accepting configured "t1" (world someTasks))))
     = Returned [guestTask]
  /\ fst (deleteTask unit accepting configured "t1"
            (snd (deleteTask unit accepting configured "t1" (world someTasks))))
     = Returned tt
  /\ fst (getTasks unit accepting configured GUEST_ID
            (snd (deleteTask unit accepting configured "t1"
                    (snd (deleteTask unit accepting configured "t1" (world someTasks))))))
     = Returned [guestTask].
Proof. repeat split. Qed.

(** C10, at the failing input: the active user is the guest, the backend
    is initialised and accepts the delete.  [deleteTask] of the guest's
    own task "t1" returns and removes nothing: the stored tasks are the
    same afterwards, the task with that id among them. *)
Lemma deleteTask_removes_no_guest_task :
  remoteInitialized configured = true
  /\ tf_current_user_profile someTasks = Some guestProfile
  /\ user_id guestProfile = GUEST_ID
  /\ useFirestore configured (Some (user_id guestProfile)) = false
  /\ stored TASKS someTasks = [guestTask; annTask]
  /\ task_id guestTask = "t1"
  /\ fst (deleteTask unit accepting configured "t1" (world someTasks)) = Returned tt
  /\ stored TASKS
       (localStorage (snd (deleteTask unit accepting configured "t1" (world someTasks))))
     = [guestTask; annTask].
Proof. repeat split. Qed.

Lemma deleteTask_idempotent_witness :
  remoteInitialized unconfigured = false
  /\ snd (deleteTask unit unreachable unconfigured "t1"
            (snd (deleteTask unit unreachable unconfigured "t1" (world someTasks))))
     = snd (deleteTask unit unreachable unconfigured "t1" (world someTasks)).
Proof.
  split; [reflexivity|].
  apply (deleteTask_idempotent unit unreachable unconfigured "t1" (world someTasks)).
  reflexivity.
Defined.

(** The active user is the guest; the task deleted belongs to "ann". *)
Lemma deleteTask_checks_no_owner_witness :
  remoteInitialized unconfigured = false
  /\ stored TASKS
       (localStorage (snd (deleteTask unit unreachable unconfigured "t2" (world someTasks))))
     = filter (fun t => negb (String.eqb (task_id t) "t2")) (stored TASKS someTasks).
Proof.
  split; [reflexivity|].
  apply (deleteTask_checks_no_owner unit unreachable unconfigured "t2" (world someTasks)).
  reflexivity.
Defined.



End Examples.

(* ===================================================================== *)
(** ** Closed scenarios for the further facts, on the reference runtime *)
(* ===================================================================== *)

Module Scenarios.

Import Reference.
Import Examples.

(** *** The data service *)





Lemma getTasks_falls_back_witness :
  fst (getTasks unit unreachable configured "ann" (world someTasks)) = Returned [annTask]
  /\ localStorage (snd (getTasks unit unreachable configured "ann" (world someTasks)))
     = someTasks
  /\ Forall (fun t => task_userId t = "ann") [annTask].
Proof.
  apply (getTasks_falls_back unit unreachable configured "ann" (world someTasks)).
  right. eexists. reflexivity.
Defined.



(** In a browser whose storage is full the first call throws and stores
    nothing; in one with room it returns the guest. *)
Lemma getCurrentUser_bootstraps_guest_witness :
  getCurrentUser_in unit isoOf full (world emptyStorage)
  = (Thrown (DOMException "QuotaExceededError"), world emptyStorage)
  /\ fst (getCurrentUser_in unit isoOf unlimited (world emptyStorage))
     = Returned (mkUserProfile GUEST_ID "Guest User" "guest@taskflow.ai" None "0").
Proof.
  split.
  - exact (getCurrentUser_bootstraps_guest unit isoOf full (world emptyStorage)).
  - destruct (getCurrentUser_bootstraps_guest unit isoOf unlimited (world emptyStorage))
      as (Hret & _).
    exact Hret.
Defined.

(** The same for [updateUserProfile], in local mode and with the backend
    out of reach. *)
Lemma updateUserProfile_then_getCurrentUser_witness :
  updateUserProfile_in unit unreachable unconfigured full guestProfile (world emptyStorage)
  = (Thrown (DOMException "QuotaExceededError"), world emptyStorage)
  /\ fst (updateUserProfile_in unit unreachable configured unlimited guestProfile
                               (world emptyStorage))
     = Returned guestProfile.
Proof.
  split.
  - exact (updateUserProfile_then_getCurrentUser unit unreachable isoOf unconfigured full
                                                 guestProfile (world emptyStorage)).
  - destruct (updateUserProfile_then_getCurrentUser unit unreachable isoOf configured
                                                    unlimited guestProfile
                                                    (world emptyStorage))
      as (Hret & _).
    exact Hret.
Defined.


(** *** Accounts *)





Lemma remote_auth_leaves_local_storage_witness :
  localStorage (snd (perform accepting isoOf configured
                             (LoginUser "ann@example.com" "secret") (world someTasks)))
  = someTasks.
Proof.
  apply (remote_auth_leaves_local_storage unit accepting isoOf configured
                                          (LoginUser "ann@example.com" "secret")
                                          (world someTasks)).
  - reflexivity.
  - exact I.
Defined.

(** *** Plans, templates and collections *)


Lemma operations_write_their_own_collection_witness :
  tf_contacts (localStorage (snd (perform accepting isoOf configured (AddTask guestTask)
                                          (world someTasks))))
  = tf_contacts someTasks.
Proof.
  destruct (operations_write_their_own_collection unit accepting isoOf configured
                                                  (AddTask guestTask) (world someTasks))
    as (_ & Hcontacts & _).
  apply Hcontacts. reflexivity.
Defined.





(** *** The App component *)

(** The guest's task on display, over a store that also holds a task of
    "ann". *)
Definition guestView : AppWorld unit :=
  mkAppWorld (mkAppState [guestTask] [] "" "" false false []) (world someTasks).



(** The deleted task is off the display, and back after a reload. *)
Lemma App_deleteTask_comes_back_witness :
  app_tasks (ui (snd (handle unit accepting configured (DeleteTaskAction "t1") guestView)))
  = []
  /\ app_tasks
       (ui (snd (handle unit accepting configured LoadUserData
                   (snd (handle unit accepting configured (DeleteTaskAction "t1")
                           guestView)))))
     = [guestTask].
Proof.
  assert (Hsync : viewInSync guestView) by (split; reflexivity).
  assert (Hres : resolves accepting (deleteDoc coll_tasks "t1") (remote (db guestView)))
    by (eexists; reflexivity).
  destruct (App_deleteTask_comes_back unit accepting configured "t1" guestView
                                      Hsync eq_refl Hres)
    as (Hgone & _ & _ & Hback).
  split; [exact Hgone|exact Hback].
Defined.


Lemma completing_a_task_celebrates_witness :
  app_showConfetti
    (ui (snd (handle unit unreachable configured
                (UpdateTaskAction (handleStatusChange guestTask)) guestView)))
  = true
  /\ app_toasts
       (ui (snd (handle unit unreachable configured
                   (UpdateTaskAction (handleStatusChange guestTask)) guestView)))
     = [("Great job!", toast_success)].
Proof.
  destruct (completing_a_task_celebrates unit unreachable configured guestTask guestView
                                         eq_refl eq_refl)
    as (_ & Hopen & _).
  destruct Hopen as (_ & Hconfetti & Htoast); [discriminate|].
  split; [exact Hconfetti|exact Htoast].
Defined.

(** *** The analytics view and the task card *)

Lemma AnalyticsView_figures_witness :
  exists p,
    stat_completionRate
      (AnalyticsView parseISO now [dueEarlierToday; doneToday; dueLaterToday]) = Some p
    /\ nearestPercent 1 3 p.
Proof.
  destruct (AnalyticsView_figures parseISO now [dueEarlierToday; doneToday; dueLaterToday])
    as (_ & _ & _ & Hrate).
  destruct Hrate as (p & Hp & Hnear & _).
  - simpl. lia.
  - exists p. split; [exact Hp|exact Hnear].
Defined.

Lemma handleAddSubtask_then_deleteSubtask_witness :
  exists added,
    handleAddSubtask "s1" "Buy milk" guestTask = Some added
    /\ subtasksOrEmpty added = [mkSubtask "s1" "Buy milk" false]
    /\ deleteSubtask "s1" added = Some (withSubtasks guestTask []).
Proof.
  apply (handleAddSubtask_then_deleteSubtask "s1" "Buy milk" guestTask).
  - reflexivity.
  - vm_compute. discriminate.
  - intros [].
Defined.

Definition reportTask : Task :=
  mkTask "t5" GUEST_ID "Write the Report" "for Monday" "2026-11-03T10:00:00.000Z" HIGH TODO
         "2026-11-01T09:00:00.000Z" None None.

Lemma search_matches_substrings_whatever_the_case_witness :
  matchesSearch (JS.toLowerCase "REPORT") reportTask = matchesSearch "REPORT" reportTask
  /\ matchesSearch "" reportTask = true.
Proof.
  destruct (search_matches_substrings_whatever_the_case "REPORT" reportTask
                                                        eq_refl eq_refl eq_refl)
    as (_ & Hcase & Hempty).
  split; [exact Hcase|exact Hempty].
Defined.

End Scenarios.
